(** * munin_exporter: a shallow embedding of munin_exporter.go

    The exporter speaks the munin-node line protocol over one TCP
    connection, builds a catalog of gauges and counters from the `list`
    and `config` answers ([registerMetrics]) and refreshes them on every
    scrape ([fetchMetrics]).

    Go strings are byte strings: they are modelled by [string], one
    [ascii] per byte.  The functions of the Go standard library that the
    program calls are modelled in the modules [strings], [bufio] and
    [regexp]; the Prometheus client library in [prometheus]. *)

From Stdlib Require Import String Ascii ZArith NArith List Lia Permutation.
From stdpp Require Import base option list gmap strings fin_maps.
Import ListNotations.

Local Open Scope string_scope.
Local Open Scope list_scope.
Local Open Scope Z_scope.

(** ** Package [strings] (byte level, ASCII classes) *)

Module strings.

(** [strings.HasPrefix(s, prefix)] *)
Definition HasPrefix (s prefix : string) : bool := String.prefix prefix s.

(** [strings.Join(elems, sep)] *)
Fixpoint Join (elems : list string) (sep : string) : string :=
  match elems with
  | [] => ""
  | [a] => a
  | a :: rest => a +:+ sep +:+ Join rest sep
  end.

(** [strings.Split(s, sep)] for a non-empty separator.  [skip] counts
    the bytes of a separator that has matched and is being dropped;
    the result is the piece under construction and the pieces after it. *)
Fixpoint splitFrom (sep : string) (skip : nat) (s : string) : string * list string :=
  match s with
  | EmptyString => ("", [])
  | String c s' =>
      match skip with
      | S k => splitFrom sep k s'
      | O =>
          if String.prefix sep s
          then let '(h, t) := splitFrom sep (String.length sep - 1) s' in ("", h :: t)
          else let '(h, t) := splitFrom sep 0 s' in (String c h, t)
      end
  end.

Definition Split (s sep : string) : list string :=
  let '(h, t) := splitFrom sep 0 s in h :: t.

(** [strings.Replace(s, old, new, n)] for a non-empty [old]; a negative
    [n] lifts the limit on the number of replacements. *)
Fixpoint replaceFrom (old new : string) (skip : nat) (limit : option nat) (s : string) : string :=
  match s with
  | EmptyString => ""
  | String c s' =>
      match skip with
      | S k => replaceFrom old new k limit s'
      | O =>
          match limit with
          | Some O => s
          | _ =>
              if String.prefix old s
              then new +:+ replaceFrom old new (String.length old - 1) (pred <$> limit) s'
              else String c (replaceFrom old new 0 limit s')
          end
      end
  end.

Definition Replace (s old new : string) (n : Z) : string :=
  replaceFrom old new 0 (if n <? 0 then None else Some (Z.to_nat n)) s.

(** The ASCII white space of [unicode.IsSpace]: tab, line feed,
    vertical tab, form feed, carriage return, space. *)
Definition isSpace (c : ascii) : bool :=
  let n := N_of_ascii c in
  ((9 <=? n) && (n <=? 13) || (n =? 32))%N.

(** [strings.Fields(s)]: the maximal runs of bytes that are not white
    space.  The auxiliary function returns the run that starts at the
    head of [s] (empty when [s] starts with white space) and the runs
    after it. *)
Fixpoint fieldsFrom (s : string) : string * list string :=
  match s with
  | EmptyString => ("", [])
  | String c s' =>
      let '(h, t) := fieldsFrom s' in
      if isSpace c
      then ("", if String.eqb h "" then t else h :: t)
      else (String c h, t)
  end.

Definition Fields (s : string) : list string :=
  let '(h, t) := fieldsFrom s in
  if String.eqb h "" then t else h :: t.

Fixpoint inCutset (c : ascii) (cutset : string) : bool :=
  match cutset with
  | EmptyString => false
  | String d r => Ascii.eqb c d || inCutset c r
  end.

(** [strings.TrimRight(s, cutset)] *)
Fixpoint TrimRight (s cutset : string) : string :=
  match s with
  | EmptyString => ""
  | String c s' =>
      let r := TrimRight s' cutset in
      if String.eqb r "" && inCutset c cutset then "" else String c r
  end.

Definition lowerByte (c : ascii) : ascii :=
  let n := N_of_ascii c in
  if ((65 <=? n) && (n <=? 90))%N then ascii_of_N (n + 32) else c.

(** [strings.ToLower(s)] on ASCII text: the letters A to Z are mapped
    to a to z, every other byte is kept. *)
Fixpoint ToLower (s : string) : string :=
  match s with
  | EmptyString => ""
  | String c s' => String (lowerByte c) (ToLower s')
  end.

End strings.

(** ** Errors, streams and package [bufio] *)

(** Go [error] values: the sentinel [io.EOF] and the errors made by
    [fmt.Errorf] or handed up by the network stack. *)
Inductive error :=
| EOF
| ErrorString (msg : string).

(** How the byte stream of a connection goes on after the bytes that are
    there: the peer has closed it, the transport fails, or nothing more
    ever comes (a read blocks for good). *)
Inductive stream_end :=
| AtEOF
| AtError (msg : string)
| AtHang.

Definition LF : ascii := ascii_of_N 10.
Definition nl : string := String LF "".

Module bufio.

(** A [*bufio.Reader]: the bytes it will deliver and how its
    underlying stream ends. *)
Record Reader := { rd_buf : string; rd_end : stream_end }.

Definition NewReader (data : string) (e : stream_end) : Reader :=
  {| rd_buf := data; rd_end := e |}.

(** The first line of [s] with its line feed, and what follows it. *)
Fixpoint readLine (s : string) : option (string * string) :=
  match s with
  | EmptyString => None
  | String c s' =>
      if Ascii.eqb c LF then Some (String c "", s')
      else match readLine s' with
           | Some (l, r) => Some (String c l, r)
           | None => None
           end
  end.

(** [r.ReadString(10)]: the line and a nil error, or the bytes
    left and the error that ended the stream; [None] when the read
    blocks for ever. *)
Definition ReadString (r : Reader) : option (string * option error * Reader) :=
  match readLine (rd_buf r) with
  | Some (l, rest) => Some (l, None, {| rd_buf := rest; rd_end := rd_end r |})
  | None =>
      match rd_end r with
      | AtEOF => Some (rd_buf r, Some EOF, {| rd_buf := ""; rd_end := AtEOF |})
      | AtError msg =>
          Some (rd_buf r, Some (ErrorString msg), {| rd_buf := ""; rd_end := AtError msg |})
      | AtHang => None
      end
  end.

(** All the complete lines of a buffer, each with its line feed, and
    the unterminated rest: what successive [ReadString] calls return
    before the stream ends. *)
Fixpoint Lines (s : string) : list string * string :=
  match s with
  | EmptyString => ([], "")
  | String c s' =>
      let '(ls, tail) := Lines s' in
      if Ascii.eqb c LF then (String c "" :: ls, tail)
      else match ls with
           | [] => ([], String c tail)
           | l :: ls' => (String c l :: ls', tail)
           end
  end.

Inductive peeked := PeekOk | PeekErr (e : error) | PeekBlocks.

(** [r.Peek(1)]: is there a byte to read? *)
Definition Peek1 (r : Reader) : peeked :=
  match rd_buf r, rd_end r with
  | String _ _, _ => PeekOk
  | EmptyString, AtEOF => PeekErr EOF
  | EmptyString, AtError msg => PeekErr (ErrorString msg)
  | EmptyString, AtHang => PeekBlocks
  end.

End bufio.

(** ** The banner pattern *)

Module regexp.

(** What follows the leftmost occurrence of [pat] in [s]. *)
Fixpoint findAfter (pat s : string) : option string :=
  if String.prefix pat s then Some (String.substring (String.length pat) (String.length s - String.length pat) s)
  else match s with
       | EmptyString => None
       | String _ s' => findAfter pat s'
       end.

(** The longest prefix without a line feed: what the group of the
    pattern (any bytes but a line feed) captures. *)
Fixpoint dotStar (s : string) : string :=
  match s with
  | EmptyString => ""
  | String c s' => if Ascii.eqb c LF then "" else String c (dotStar s')
  end.

Definition bannerLiteral : string := "# munin node at ".

(** [muninBanner.FindStringSubmatch(head)] for the banner pattern, the
    literal followed by one greedy group: the match and its group, or
    nil. *)
Definition FindStringSubmatch (head : string) : list string :=
  match findAfter bannerLiteral head with
  | Some rest => [bannerLiteral +:+ dotStar rest; dotStar rest]
  | None => []
  end.

End regexp.

(** ** Numbers *)

(** The [float64] values of the program are kept abstract: a type, and
    on it the parser [strconv.ParseFloat(s, 64)], the conversion
    [Duration.Seconds] of a duration in nanoseconds, and the constants
    0 and 1 the program uses.  The data types depend on the type alone. *)
Class Float64Type := {
  float64 : Type;
}.

Class Float64 {FT : Float64Type} := {
  f64_zero : float64;
  f64_one : float64;
  ParseFloat : string -> option float64;
  Seconds : Z -> float64;
}.

(** ** Package [prometheus] *)

Module prometheus.
Section WithFloat.
Context {FT : Float64Type}.

Record Desc := {
  fqName : string;
  help : string;
  variableLabels : list string;
  constLabels : list (string * string);
}.

Definition NewDesc (name hlp : string) (labels : list string)
    (consts : list (string * string)) : Desc :=
  {| fqName := name; help := hlp; variableLabels := labels; constLabels := consts |}.

Record GaugeOpts := {
  Name : string;
  Help : string;
  ConstLabels : list (string * string);
}.

(** A [*GaugeVec]: its descriptor and one gauge per vector of label
    values. *)
Record GaugeVec := {
  gv_desc : Desc;
  gv_metrics : gmap (list string) float64;
}.

Definition NewGaugeVec (opts : GaugeOpts) (labelNames : list string) : GaugeVec :=
  {| gv_desc := NewDesc (Name opts) (Help opts) labelNames (ConstLabels opts);
     gv_metrics := ∅ |}.

(** [gv.WithLabelValues(lvs...).Set(v)].  [WithLabelValues] panics
    ([None]) unless there is one value per label name and every value
    passes the library's validation. *)
Definition WithLabelValues_Set (valid : string -> bool) (gv : GaugeVec)
    (lvs : list string) (v : float64) : option GaugeVec :=
  if (length lvs =? length (variableLabels (gv_desc gv)))%nat && forallb valid lvs
  then Some {| gv_desc := gv_desc gv; gv_metrics := <[lvs := v]> (gv_metrics gv) |}
  else None.

Inductive ValueType := CounterValue | GaugeValue | UntypedValue.

(** A constant metric, as made by [MustNewConstMetric]. *)
Record Metric := {
  m_desc : Desc;
  m_type : ValueType;
  m_value : float64;
  m_labels : list string;
}.

End WithFloat.
End prometheus.

Declare Scope go_scope.
Delimit Scope go_scope with go.

(** ** The surroundings of the program *)

(** The metrics sink: the type of its registry, and
    [prometheus.Register], which looks at the descriptors a collector
    describes and answers with an error or nil. *)
Class SinkType := {
  Registry : Type;
}.

Class Sink {ST : SinkType} := {
  Register : Registry -> list prometheus.Desc -> Registry * option error;
}.

(** What the Go runtime and the client library decide: the order in
    which [range] visits the entries of a map (some permutation of
    them), the version string and the validation of label values. *)
Class GoRuntime := {
  rangeOrder : list (string * gmap string string) -> list (string * gmap string string);
  rangeOrder_perm : forall l, Permutation (rangeOrder l) l;
  runtime_Version : string;
  validLabelValue : string -> bool;
}.

(** The command line flags the core reads. *)
Record Flags := {
  muninAddress : string;
  metricPrefix : string;
  muninIgnore : string;
  muninScrapeInterval : Z;
}.

(** One answer of the agent: the time it takes to come, the bytes, and
    how the stream goes on after them. *)
Record exchange := {
  x_delay : N;
  x_data : string;
  x_end : stream_end;
}.

(** One [net.Dial]: it fails, or gives a connection that sends a banner
    and then answers the commands one by one; when the answers are used
    up the agent has closed the connection. *)
Inductive dial :=
| DialError (delay : N) (msg : string)
| DialOk (delay : N) (banner : exchange) (script : list exchange).

Definition proto : string := "tcp".
Definition retryInterval : Z := 1.
Definition version_num : string := "0.2".
Definition Second : Z := 1000000000.
Definition fetchTimeName : string := "munin_exporter_fetch_time".
Definition fieldLabels : list string := ["hostname"; "graphname"; "muninlabel"].

Section Exporter.
Context {FT : Float64Type} {FL : Float64} {ST : SinkType} {SK : Sink} {RT : GoRuntime}.
Variable flags : Flags.

Import prometheus.

(** *** The counter holder *)

Record muninCounter := {
  counterDesc : Desc;
  value : float64;
  currentLabels : list string;
}.

Definition Describe (c : muninCounter) : list Desc := [counterDesc c].

(** [Collect]: one constant metric of type counter.
    [MustNewConstMetric] panics ([None]) when the labels do not fit
    the descriptor. *)
Definition Collect (c : muninCounter) : option Metric :=
  if (length (currentLabels c) =? length (variableLabels (counterDesc c)))%nat
  then Some {| m_desc := counterDesc c; m_type := CounterValue;
               m_value := value c; m_labels := currentLabels c |}
  else None.

Definition UpdateLabels (c : muninCounter) (labels : list string) (v : float64) : muninCounter :=
  {| counterDesc := counterDesc c; value := v; currentLabels := labels |}.

Definition newMuninCounter (metricName desc : string) (labels : list string)
    (consts : list (string * string)) : muninCounter :=
  {| counterDesc := NewDesc metricName desc labels consts;
     value := f64_zero; currentLabels := [] |}.

(** *** State and observable events *)

Inductive arg :=
| AStr (s : string)
| AFloat (f : float64).

Inductive event :=
| EvLog (format : string) (args : list arg)
| EvWrite (data : string)
| EvClose
| EvDial (ok : bool)
| EvSleep (seconds : Z)
| EvRegister (name : string) (err : option error)
| EvGaugeSet (name : string) (lvs : list string) (v : float64)
| EvCounterUpdate (name : string) (lvs : list string) (v : float64).

(** The package variables, the agent's future behaviour ([globalConn]
    is the script of the live connection, [world] the dials to come),
    the monotonic clock in nanoseconds and the trace of what the
    program did.  A holder is reached through its map only, so the
    maps hold the holders themselves. *)
Record state := {
  hostname : string;
  graphs : list string;
  gaugePerMetric : gmap string GaugeVec;
  counterPerMetric : gmap string muninCounter;
  registry : Registry;
  globalConn : option (list exchange);
  world : list dial;
  now : Z;
  trace : list event;
}.

Definition set_hostname (h : string) (s : state) : state :=
  {| hostname := h; graphs := graphs s; gaugePerMetric := gaugePerMetric s;
     counterPerMetric := counterPerMetric s; registry := registry s;
     globalConn := globalConn s; world := world s; now := now s; trace := trace s |}.
Definition set_graphs (g : list string) (s : state) : state :=
  {| hostname := hostname s; graphs := g; gaugePerMetric := gaugePerMetric s;
     counterPerMetric := counterPerMetric s; registry := registry s;
     globalConn := globalConn s; world := world s; now := now s; trace := trace s |}.
Definition set_gaugePerMetric (m : gmap string GaugeVec) (s : state) : state :=
  {| hostname := hostname s; graphs := graphs s; gaugePerMetric := m;
     counterPerMetric := counterPerMetric s; registry := registry s;
     globalConn := globalConn s; world := world s; now := now s; trace := trace s |}.
Definition set_counterPerMetric (m : gmap string muninCounter) (s : state) : state :=
  {| hostname := hostname s; graphs := graphs s; gaugePerMetric := gaugePerMetric s;
     counterPerMetric := m; registry := registry s;
     globalConn := globalConn s; world := world s; now := now s; trace := trace s |}.
Definition set_registry (r : Registry) (s : state) : state :=
  {| hostname := hostname s; graphs := graphs s; gaugePerMetric := gaugePerMetric s;
     counterPerMetric := counterPerMetric s; registry := r;
     globalConn := globalConn s; world := world s; now := now s; trace := trace s |}.
Definition set_globalConn (c : option (list exchange)) (s : state) : state :=
  {| hostname := hostname s; graphs := graphs s; gaugePerMetric := gaugePerMetric s;
     counterPerMetric := counterPerMetric s; registry := registry s;
     globalConn := c; world := world s; now := now s; trace := trace s |}.
Definition set_world (w : list dial) (s : state) : state :=
  {| hostname := hostname s; graphs := graphs s; gaugePerMetric := gaugePerMetric s;
     counterPerMetric := counterPerMetric s; registry := registry s;
     globalConn := globalConn s; world := w; now := now s; trace := trace s |}.
Definition tick (d : N) (s : state) : state :=
  {| hostname := hostname s; graphs := graphs s; gaugePerMetric := gaugePerMetric s;
     counterPerMetric := counterPerMetric s; registry := registry s;
     globalConn := globalConn s; world := world s; now := now s + Z.of_N d;
     trace := trace s |}.
Definition emit (e : event) (s : state) : state :=
  {| hostname := hostname s; graphs := graphs s; gaugePerMetric := gaugePerMetric s;
     counterPerMetric := counterPerMetric s; registry := registry s;
     globalConn := globalConn s; world := world s; now := now s;
     trace := trace s ++ [e] |}.

(** The events of the protocol client. *)
Definition isClientEvent (e : event) : Prop :=
  match e with
  | EvLog _ _ | EvWrite _ | EvClose | EvDial _ | EvSleep _ => True
  | _ => False
  end.

(** *** Computations *)

(** A call returns a value in a new state, or the process stops
    there: [log.Fatalf] exits, a panic, or a wait that never ends. *)
Inductive stop := Fatal | Panic | Hang.

Inductive result (A : Type) :=
| Done (a : A) (s : state)
| Stop (why : stop) (s : state).
Arguments Done {A} a s.
Arguments Stop {A} why s.

Definition M (A : Type) : Type := state -> result A.

Definition ret {A} (a : A) : M A := fun s => Done a s.
Definition bind {A B} (m : M A) (k : A -> M B) : M B :=
  fun s => match m s with
           | Done a s' => k a s'
           | Stop why s' => Stop why s'
           end.
Definition get {A} (f : state -> A) : M A := fun s => Done (f s) s.
Definition modify (f : state -> state) : M unit := fun s => Done tt (f s).
Definition halt {A} (why : stop) : M A := fun s => Stop why s.

(** The state in which a call ends, whichever way. *)
Definition stateOf {A} (r : result A) : state :=
  match r with
  | Done _ s => s
  | Stop _ s => s
  end.

(** What a call returns, when it returns. *)
Definition valueOf {A} (r : result A) : option A :=
  match r with
  | Done a _ => Some a
  | Stop _ _ => None
  end.

(** Why the process stops in a call, when it does. *)
Definition stopOf {A} (r : result A) : option stop :=
  match r with
  | Done _ _ => None
  | Stop why _ => Some why
  end.

Notation "x <- m ;; k" := (bind m (fun x => k))
  (at level 100, m at next level, right associativity) : go_scope.
Notation "m ;;; k" := (bind m (fun _ => k))
  (at level 100, right associativity) : go_scope.
Local Open Scope go_scope.

Definition logPrintf (format : string) (args : list arg) : M unit :=
  modify (emit (EvLog format args)).

(** [log.Fatalf]: the message is logged and the process exits. *)
Definition logFatalf {A} (format : string) (args : list arg) : M A :=
  fun s => Stop Fatal (emit (EvLog format args) s).

Definition errorText (e : error) : string :=
  match e with
  | EOF => "EOF"
  | ErrorString msg => msg
  end.

(** [time.Sleep(d * time.Second)] *)
Definition Sleep (seconds : Z) : M unit :=
  modify (fun s => tick (Z.to_N (seconds * Second)) (emit (EvSleep seconds) s)).

(** *** The protocol client *)

(** [connect()] with the outcome of its [net.Dial] at hand; [None]
    stands for a dial of a world that has none left, which fails. *)
Definition connectWith (d : option dial) : M (option error) :=
  logPrintf "Connecting..." [] ;;;
  match d with
  | None =>
      modify (fun s => set_globalConn None (emit (EvDial false) s)) ;;;
      ret (Some (ErrorString "dial: no route to host"))
  | Some (DialError delay msg) =>
      modify (fun s => set_globalConn None (tick delay (emit (EvDial false) s))) ;;;
      ret (Some (ErrorString msg))
  | Some (DialOk delay banner script) =>
      modify (fun s => set_globalConn (Some script) (tick delay (emit (EvDial true) s))) ;;;
      logPrintf "connected!" [] ;;;
      modify (tick (x_delay banner)) ;;;
      match bufio.ReadString (bufio.NewReader (x_data banner) (x_end banner)) with
      | None => halt Hang
      | Some (head, Some err, _) => ret (Some err)
      | Some (head, None, _) =>
          match regexp.FindStringSubmatch head with
          | [_; h] =>
              modify (set_hostname h) ;;;
              logPrintf "Found hostname: %s" [AStr h] ;;;
              ret None
          | _ => ret (Some (ErrorString ("Unexpected line: " +:+ head)))
          end
      end
  end.

Definition connect : M (option error) :=
  fun s => match world s with
           | [] => connectWith None s
           | d :: w => connectWith (Some d) (set_world w s)
           end.

(** The body of [muninCommand] up to its recursive call: write the
    command, peek at the answer; on [io.EOF] log, close and go on with
    [reconnect], which stands for the retry loop and the call
    [muninCommand(cmd)] after it. *)
Definition issue (cmd : string) (reconnect : M (bufio.Reader * option error))
    : M (bufio.Reader * option error) :=
  conn <- get globalConn ;;
  match conn with
  | None => halt Panic
  | Some script =>
      modify (emit (EvWrite (cmd +:+ nl))) ;;;
      let x := match script with
               | [] => {| x_delay := 0; x_data := ""; x_end := AtEOF |}
               | x :: _ => x
               end in
      modify (fun s => tick (x_delay x) (set_globalConn (Some (tl script)) s)) ;;;
      let reader := bufio.NewReader (x_data x) (x_end x) in
      match bufio.Peek1 reader with
      | bufio.PeekBlocks => halt Hang
      | bufio.PeekErr EOF =>
          logPrintf "not connected anymore, closing connection" [] ;;;
          modify (emit EvClose) ;;;
          reconnect
      | bufio.PeekOk => ret (reader, None)
      | bufio.PeekErr err => logFatalf "Unexpected error: %s" [AStr (errorText err)]
      end
  end.

(** The retry loop of [muninCommand] followed by its recursive call,
    by recursion on the dials the world still has: a failed [connect]
    is logged and retried after [retryInterval] seconds; after a
    successful one the command is issued again.  When no dial is left
    every further attempt fails and the loop never ends. *)
Fixpoint retryCommand (cmd : string) (w : list dial) : M (bufio.Reader * option error) :=
  match w with
  | [] => halt Hang
  | d :: w' =>
      modify (set_world w') ;;;
      err <- connectWith (Some d) ;;
      match err with
      | None => issue cmd (retryCommand cmd w')
      | Some e =>
          logPrintf "Couldn't reconnect: %s" [AStr (errorText e)] ;;;
          Sleep retryInterval ;;;
          retryCommand cmd w'
      end
  end.

Definition muninCommand (cmd : string) : M (bufio.Reader * option error) :=
  issue cmd (w <- get world ;; retryCommand cmd w).

(** [init()] after flag parsing: fresh maps, then [connect()]. *)
Definition init : M unit :=
  modify (fun s => set_counterPerMetric ∅ (set_gaugePerMetric ∅ s)) ;;;
  err <- connect ;;
  match err with
  | Some e => logFatalf "Could not connect to %s: %s" [AStr (muninAddress flags); AStr (errorText e)]
  | None => ret tt
  end.

(** *** Discovery *)

Definition firstByte (s : string) : option ascii :=
  match s with
  | EmptyString => None
  | String c _ => Some c
  end.

Definition isByte (c : string) (b : option ascii) : bool :=
  match b, firstByte c with
  | Some x, Some y => Ascii.eqb x y
  | _, _ => false
  end.

Definition muninList : M (list string * option error) :=
  r <- muninCommand "list" ;;
  match r with
  | (_, Some err) => logPrintf "couldn't get list" [] ;;; ret ([], Some err)
  | (munin, None) =>
      match bufio.ReadString munin with
      | None => halt Hang
      | Some (_, Some err, _) => logPrintf "couldn't read response" [] ;;; ret ([], Some err)
      | Some (response, None, _) =>
          if isByte "#" (firstByte response)
          then ret ([], Some (ErrorString ("Error getting items: " +:+ response)))
          else ret (strings.Fields (strings.TrimRight response nl), None)
      end
  end.

(** A Go map read at a key it may lack gives the empty string. *)
Definition at_key (m : gmap string string) (k : string) : string := default "" (m !! k).

Definition element (l : list string) (i : nat) : string := nth i l "".

Definition configs_t : Type := gmap string (gmap string string).

(** One turn of the loop of [muninConfig] on a line that is neither
    the end marker nor a comment: [inr] is the error the function
    returns, [inl] the two maps after the line. *)
Definition configLine (line : string) (config : configs_t) (graphConfig : gmap string string)
    : configs_t * gmap string string + error :=
  let parts := strings.Fields line in
  if (length parts <? 2)%nat
  then inr (ErrorString ("Line unexpected: " +:+ line))
  else
    let key := element parts 0 in
    let value := strings.TrimRight (strings.Join (tl parts) " ") nl in
    let keyParts := strings.Split key "." in
    if (1 <? length keyParts)%nat
    then
      let config' := match config !! element keyParts 0 with
                     | Some _ => config
                     | None => <[element keyParts 0 := ∅]> config
                     end in
      inl (<[element keyParts 0 :=
               <[element keyParts 1 := value]> (default ∅ (config' !! element keyParts 0))]> config',
           graphConfig)
    else inl (config, <[element keyParts 0 := value]> graphConfig).

(** The loop of [muninConfig] over the lines [ReadString] returns,
    then over the end of the stream. *)
Fixpoint configLoop (ls : list string) (rest : stream_end)
    (config : configs_t) (graphConfig : gmap string string)
    : M (configs_t * gmap string string * option error) :=
  match ls with
  | [] =>
      match rest with
      | AtEOF => logFatalf "unexpected EOF, retrying" []
      | AtError msg => ret (∅, ∅, Some (ErrorString msg))
      | AtHang => halt Hang
      end
  | line :: ls' =>
      if String.eqb line ("." +:+ nl) then ret (config, graphConfig, None)
      else if isByte "#" (firstByte line) then configLoop ls' rest config graphConfig
      else match configLine line config graphConfig with
           | inr err => ret (∅, ∅, Some err)
           | inl (config', graphConfig') => configLoop ls' rest config' graphConfig'
           end
  end.

Definition muninConfig (name : string) : M (configs_t * gmap string string * option error) :=
  r <- muninCommand ("config " +:+ name) ;;
  match r with
  | (_, Some err) =>
      logPrintf "couldn't get config for %s" [AStr name] ;;; ret (∅, ∅, Some err)
  | (resp, None) =>
      configLoop (fst (bufio.Lines (bufio.rd_buf resp))) (bufio.rd_end resp) ∅ ∅
  end.

(** *** The catalog *)

(** The canonical name as [registerMetrics] computes it. *)
Definition metricName_register (name metric : string) : string :=
  let metricParts := [name; metric] in
  let metricParts := if negb (String.eqb (metricPrefix flags) "")
                     then [metricPrefix flags] ++ metricParts else metricParts in
  strings.Replace (strings.Join metricParts "_") "-" "_" (-1).

(** The flag [skip] after the loop over the ignore list. *)
Definition skipped (ignoreList : list string) (name : string) : bool :=
  fold_left (fun skip prefix => if strings.HasPrefix name prefix then true else skip)
            ignoreList false.

Definition register (name : string) (descs : list Desc) : M unit :=
  modify (fun s => let '(r, err) := Register (registry s) descs in
                   emit (EvRegister name err) (set_registry r s)).

Definition isCounterType (muninType : string) : bool :=
  String.eqb muninType "counter" || String.eqb muninType "derive".

(** The body of the loop over the fields of one plugin. *)
Definition registerField (name : string) (graphConfig : gmap string string)
    (metric : string) (config : gmap string string) : M unit :=
  let metricName := metricName_register name metric in
  let desc := at_key graphConfig "graph_title" +:+ ": " +:+ at_key config "label" in
  let desc := if negb (String.eqb (at_key config "info") "")
              then desc +:+ ", " +:+ at_key config "info" else desc in
  let muninType := strings.ToLower (at_key config "type") in
  if isCounterType muninType
  then
    let gv := newMuninCounter metricName desc fieldLabels [("type", muninType)] in
    logPrintf "Registered counter %s: %s" [AStr metricName; AStr desc] ;;;
    modify (fun s => set_counterPerMetric (<[metricName := gv]> (counterPerMetric s)) s) ;;;
    register metricName (Describe gv)
  else
    let gv := NewGaugeVec {| Name := metricName; Help := desc;
                             ConstLabels := [("type", "gauge")] |} fieldLabels in
    logPrintf "Registered gauge %s: %s" [AStr metricName; AStr desc] ;;;
    modify (fun s => set_gaugePerMetric (<[metricName := gv]> (gaugePerMetric s)) s) ;;;
    register metricName [gv_desc gv].

Fixpoint registerFields (name : string) (graphConfig : gmap string string)
    (fields : list (string * gmap string string)) : M unit :=
  match fields with
  | [] => ret tt
  | (metric, config) :: fields' =>
      registerField name graphConfig metric config ;;;
      registerFields name graphConfig fields'
  end.

(** The loop of [registerMetrics] over the plugin names; [Some err] is
    its early [return err]. *)
Fixpoint registerPlugins (ignoreList items : list string) : M (option error) :=
  match items with
  | [] => ret None
  | name :: items' =>
      if skipped ignoreList name then registerPlugins ignoreList items'
      else
        modify (fun s => set_graphs (graphs s ++ [name]) s) ;;;
        r <- muninConfig name ;;
        match r with
        | (_, _, Some err) => ret (Some err)
        | (configs, graphConfig, None) =>
            registerFields name graphConfig (rangeOrder (map_to_list configs)) ;;;
            registerPlugins ignoreList items'
        end
  end.

(** The two built-in gauges. *)
Definition registerBuiltins : M (option error) :=
  let buildInfoMetric :=
    NewGaugeVec {| Name := "munin_exporter_build_info"; Help := "Munin exporter build info";
                   ConstLabels := [("type", "gauge")] |} ["goversion"; "version_num"] in
  match WithLabelValues_Set validLabelValue buildInfoMetric
          [runtime_Version; version_num] f64_one with
  | None => halt Panic
  | Some buildInfoMetric =>
      modify (emit (EvGaugeSet "munin_exporter_build_info"
                      [runtime_Version; version_num] f64_one)) ;;;
      register "munin_exporter_build_info" [gv_desc buildInfoMetric] ;;;
      let gv := NewGaugeVec {| Name := fetchTimeName;
                               Help := "Time taken to fetch data from all registered munin plugins";
                               ConstLabels := [("type", "gauge")] |} ["hostname"] in
      modify (fun s => set_gaugePerMetric (<[fetchTimeName := gv]> (gaugePerMetric s)) s) ;;;
      register fetchTimeName [gv_desc gv] ;;;
      ret None
  end.

Definition registerMetrics : M (option error) :=
  r <- muninList ;;
  match r with
  | (_, Some err) => ret (Some err)
  | (items, None) =>
      let ignoreList := strings.Split (muninIgnore flags) "," in
      err <- registerPlugins ignoreList items ;;
      match err with
      | Some e => ret (Some e)
      | None => registerBuiltins
      end
  end.

(** *** The scrape *)

(** The canonical name as [fetchMetrics] computes it. *)
Definition metricName_fetch (graph key : string) : string :=
  let metricParts := [graph; key] in
  let metricParts := if negb (String.eqb (metricPrefix flags) "")
                     then [metricPrefix flags] ++ metricParts else metricParts in
  strings.Replace (strings.Join metricParts "_") "-" "_" (-1).

(** [gaugePerMetric[name].WithLabelValues(lvs...).Set(v)] *)
Definition gaugeSet (name : string) (lvs : list string) (v : float64) : M unit :=
  gauges <- get gaugePerMetric ;;
  match gauges !! name with
  | None => halt Panic
  | Some gv =>
      match WithLabelValues_Set validLabelValue gv lvs v with
      | None => halt Panic
      | Some gv' =>
          modify (fun s => emit (EvGaugeSet name lvs v)
                             (set_gaugePerMetric (<[name := gv']> (gaugePerMetric s)) s))
      end
  end.

(** [counterPerMetric[name].UpdateLabels(lvs, v)] *)
Definition counterUpdate (name : string) (lvs : list string) (v : float64) : M unit :=
  counters <- get counterPerMetric ;;
  match counters !! name with
  | None => halt Panic
  | Some c =>
      modify (fun s => emit (EvCounterUpdate name lvs v)
                         (set_counterPerMetric (<[name := UpdateLabels c lvs v]> (counterPerMetric s)) s))
  end.

(** One turn of the inner loop of [fetchMetrics] on a line that is not
    the end marker; [line] has lost its line feed. *)
Definition fetchLine (graph line : string) : M unit :=
  let parts := strings.Fields line in
  if negb (length parts =? 2)%nat
  then logPrintf "unexpected line: %s" [AStr line]
  else
    let key := element (strings.Split (element parts 0) ".") 0 in
    let valueString := element parts 1 in
    match ParseFloat valueString with
    | None => logPrintf "Couldn't parse value in line %s, malformed?" [AStr line]
    | Some v =>
        let name := metricName_fetch graph key in
        logPrintf ("%s: %f" +:+ nl) [AStr name; AFloat v] ;;;
        gauges <- get gaugePerMetric ;;
        if bool_decide (is_Some (gauges !! name))
        then host <- get hostname ;; gaugeSet name [host; graph; key] v
        else
          counters <- get counterPerMetric ;;
          if bool_decide (is_Some (counters !! name))
          then host <- get hostname ;; counterUpdate name [host; graph; key] v
          else ret tt
    end.

Definition isEndMarker (line : string) : bool :=
  (String.length line =? 1)%nat && isByte "." (firstByte line).

(** The inner loop of [fetchMetrics] over the lines [ReadString]
    returns, then over the end of the stream; [Some err] is the early
    [return err]. *)
Fixpoint fetchLoop (graph : string) (ls : list string) (rest : stream_end) : M (option error) :=
  match ls with
  | [] =>
      match rest with
      | AtEOF => logFatalf "unexpected EOF, retrying" []
      | AtError msg => ret (Some (ErrorString msg))
      | AtHang => halt Hang
      end
  | raw :: ls' =>
      let line := strings.TrimRight raw nl in
      if isEndMarker line then logPrintf "End of list" [] ;;; ret None
      else fetchLine graph line ;;; fetchLoop graph ls' rest
  end.

(** The loop of [fetchMetrics] over [graphs]. *)
Fixpoint fetchGraphs (gs : list string) : M (option error) :=
  match gs with
  | [] => ret None
  | graph :: gs' =>
      r <- muninCommand ("fetch " +:+ graph) ;;
      match r with
      | (_, Some err) => ret (Some err)
      | (munin, None) =>
          err <- fetchLoop graph (fst (bufio.Lines (bufio.rd_buf munin))) (bufio.rd_end munin) ;;
          match err with
          | Some e => ret (Some e)
          | None => fetchGraphs gs'
          end
      end
  end.

Definition fetchMetrics : M (option error) :=
  start <- get now ;;
  gs <- get graphs ;;
  err <- fetchGraphs gs ;;
  match err with
  | Some e => ret (Some e)
  | None =>
      host <- get hostname ;;
      t <- get now ;;
      gaugeSet fetchTimeName [host] (Seconds (t - start)) ;;;
      ret None
  end.

(** *** [main] *)

(** The start of [main]: the catalog or a fatal exit. *)
Definition startup : M unit :=
  err <- registerMetrics ;;
  match err with
  | Some e => logFatalf "Could not register metrics: %s" [AStr (errorText e)]
  | None => ret tt
  end.

(** One turn of the scrape loop of [main]. *)
Definition scrape : M unit :=
  logPrintf "Scraping" [] ;;;
  err <- fetchMetrics ;;
  match err with
  | Some e => logPrintf "Error occured when trying to fetch metrics: %s" [AStr (errorText e)]
  | None => ret tt
  end ;;;
  Sleep (muninScrapeInterval flags).

Fixpoint scrapes (n : nat) : M unit :=
  match n with
  | O => ret tt
  | S n' => scrape ;;; scrapes n'
  end.

End Exporter.

Arguments Done {_ _ _} a s.
Arguments Stop {_ _ _} why s.

(** ** Frames *)

Section Frames.
Context {FT : Float64Type} {FL : Float64} {ST : SinkType} {SK : Sink}.

(** The frame of the protocol client: it leaves the plugin list, the
    holders and the registry alone, the clock does not go back and the
    trace grows by events of the connection only. *)
Record clientFrame (s s' : state) : Prop := {
  cf_graphs : graphs s' = graphs s;
  cf_gauges : gaugePerMetric s' = gaugePerMetric s;
  cf_counters : counterPerMetric s' = counterPerMetric s;
  cf_registry : registry s' = registry s;
  cf_now : now s <= now s';
  cf_trace : exists evs, trace s' = trace s ++ evs /\ Forall isClientEvent evs;
}.

(** A computation keeps a relation when the state it ends in, whichever
    way, is related to the state it started in. *)
Definition keeps (R : relation state) {A} (m : M A) : Prop :=
  forall s, R s (stateOf (m s)).

(** The plugin list stays as it is. *)
Definition sameGraphs : relation state := fun s s' => graphs s' = graphs s.

(** The label names of the gauge holders, by canonical name. *)
Definition schema (s : state) : gmap string (list string) :=
  (fun gv => prometheus.variableLabels (prometheus.gv_desc gv)) <$> gaugePerMetric s.

(** The events of one fetch answer: a gauge is set with three label
    values, on a holder that has three label names; nothing is
    registered. *)
Definition isLineEvent (sch : gmap string (list string)) (e : event) : Prop :=
  match e with
  | EvGaugeSet n lvs _ => length lvs = 3%nat /\ length <$> sch !! n = Some 3%nat
  | EvRegister _ _ => False
  | _ => True
  end.

(** The frame of the plugin loop of a scrape: the plugin list and the
    label names of the gauge holders stay, the clock does not go back
    and the trace grows by events of fetch answers. *)
Record scrapeFrame (s s' : state) : Prop := {
  sf_graphs : graphs s' = graphs s;
  sf_schema : schema s' = schema s;
  sf_now : now s <= now s';
  sf_trace : exists evs, trace s' = trace s ++ evs /\ Forall (isLineEvent (schema s)) evs;
}.

End Frames.

(** ** A sink that refuses nothing *)

Section Forget.
Context {FT : Float64Type}.



Context {ST : SinkType}.





End Forget.

(** ** The specification's words *)

(** The part of a banner line that the banner pattern matches. *)
Definition bannerMatch (head : string) : string :=
  match regexp.FindStringSubmatch head with
  | m :: _ => m
  | [] => ""
  end.



(** Every [-] becomes [_]. *)
Fixpoint dashToUnderscore (s : string) : string :=
  match s with
  | EmptyString => ""
  | String c s' => String (if Ascii.eqb c "-" then "_"%char else c) (dashToUnderscore s')
  end.

(** The canonical name of the specification: the optional non-empty
    global prefix, the plugin name and the field name joined with [_],
    every [-] then replaced by [_]. *)
Definition canonicalName (prefix plugin field : string) : string :=
  dashToUnderscore
    (if String.eqb prefix "" then plugin +:+ "_" +:+ field
     else prefix +:+ "_" +:+ plugin +:+ "_" +:+ field).

Definition isUpper (c : ascii) : bool :=
  let n := N_of_ascii c in ((65 <=? n) && (n <=? 90))%N.

(** Two bytes that are the same letter in either case, or the same byte. *)
Definition sameLetter (x y : ascii) : bool :=
  Ascii.eqb x y
  || (isUpper x && (N_of_ascii y =? N_of_ascii x + 32)%N)
  || (isUpper y && (N_of_ascii x =? N_of_ascii y + 32)%N).


(** Equality of two strings without regard to the case of letters. *)
Fixpoint equalFold (a b : string) : bool :=
  match a, b with
  | EmptyString, EmptyString => true
  | String x a', String y b' => sameLetter x y && equalFold a' b'
  | _, _ => false
  end.

(** The plugins the specification retains: those of which no entry of
    the ignore list is a prefix. *)
Definition retained (ignoreList items : list string) : list string :=
  filter (fun name => Forall (fun prefix => ¬ String.prefix prefix name = true) ignoreList) items.

(** The description of a field: the graph title, the label and, when
    there is one, the info text. *)
Definition fieldDesc (graphConfig config : gmap string string) : string :=
  let desc := at_key graphConfig "graph_title" +:+ ": " +:+ at_key config "label" in
  if negb (String.eqb (at_key config "info") "")
  then desc +:+ ", " +:+ at_key config "info" else desc.



(** ** Further notions for the properties of the code *)


(** A string without a line feed. *)
Fixpoint noLF (s : string) : bool :=
  match s with
  | EmptyString => true
  | String c s' => negb (Ascii.eqb c LF) && noLF s'
  end.


Section Outcomes.
Context {FT : Float64Type} {ST : SinkType}.

(** How a call of [muninCommand] may end: it returns a reader that has
    a byte to give, with a nil error and a connection in [globalConn];
    or the process exits or waits for ever.  It does not panic. *)
Definition commandOutcome (r : result (bufio.Reader * option error)) : Prop :=
  match r with
  | Done (rd, err) s =>
      err = None /\ bufio.Peek1 rd = bufio.PeekOk /\ is_Some (globalConn s)
  | Stop why _ => why <> Panic
  end.

End Outcomes.

(** Does the byte occur in the string? *)
Fixpoint hasByte (c : ascii) (s : string) : bool :=
  match s with
  | EmptyString => false
  | String d s' => Ascii.eqb c d || hasByte c s'
  end.

(** A comment line of a config answer. *)
Definition isComment (line : string) : bool := isByte "#" (firstByte line).


Section Holders.
Context {FT : Float64Type} {ST : SinkType}.

(** The descriptors of the holders, by canonical name. *)
Definition gaugeDescs (s : state) : gmap string prometheus.Desc :=
  prometheus.gv_desc <$> gaugePerMetric s.

Definition counterDescs (s : state) : gmap string prometheus.Desc :=
  counterDesc <$> counterPerMetric s.

(** The frame of a scrape: the plugin list, the registry and the
    holders with their descriptors stay; values and labels may change. *)
Record holdersFrame (s s' : state) : Prop := {
  hf_graphs : graphs s' = graphs s;
  hf_registry : registry s' = registry s;
  hf_gauges : gaugeDescs s' = gaugeDescs s;
  hf_counters : counterDescs s' = counterDescs s;
}.

(** A well-formed catalog: every holder is described under the name it
    is kept under; every holder has the three field labels, but for the
    scrape-duration gauge. *)
Record wellFormed (s : state) : Prop := {
  wf_gauge_name : forall k d, gaugeDescs s !! k = Some d -> prometheus.fqName d = k;
  wf_counter_name : forall k d, counterDescs s !! k = Some d -> prometheus.fqName d = k;
  wf_gauge_labels : forall k d, gaugeDescs s !! k = Some d -> k <> fetchTimeName ->
                      prometheus.variableLabels d = fieldLabels;
  wf_counter_labels : forall k d, counterDescs s !! k = Some d ->
                        prometheus.variableLabels d = fieldLabels;
}.

Definition keepsWellFormed : relation state := fun s s' => wellFormed s -> wellFormed s'.

End Holders.

(** The descriptor of the built-in scrape-duration gauge. *)
Definition fetchTimeDesc : prometheus.Desc :=
  prometheus.NewDesc fetchTimeName
    "Time taken to fetch data from all registered munin plugins"
    ["hostname"] [("type", "gauge")].

Section MoreFrames.
Context {FT : Float64Type} {ST : SinkType}.

(** The scrape-duration gauge is in the gauge map with its one label. *)
Definition durationGauge (s : state) : Prop :=
  exists gv, gaugePerMetric s !! fetchTimeName = Some gv
             /\ prometheus.variableLabels (prometheus.gv_desc gv) = ["hostname"].

(** The scrape-duration gauge, when it has its one label, is left as it is. *)
Definition durationKept : relation state := fun s s' =>
  durationGauge s -> gaugePerMetric s' !! fetchTimeName = gaugePerMetric s !! fetchTimeName.

(** The clock does not go back. *)
Definition clockOn : relation state := fun s s' => now s <= now s'.

(** Two states with the same holders. *)
Definition sameHolders (s t : state) : Prop :=
  gaugePerMetric s = gaugePerMetric t /\ counterPerMetric s = counterPerMetric t.

End MoreFrames.

(** The largest number of seconds that fits a [time.Duration]. *)
Definition maxSeconds : Z := 9223372036.

(** ** A concrete world for examples *)

Module Sample.

(** Decimal numbers with at most nine digits after the point, counted
    in billionths. *)
Fixpoint digits (s : string) (acc : Z) : option Z :=
  match s with
  | EmptyString => Some acc
  | String c s' =>
      let n := Z.of_N (N_of_ascii c) in
      if (48 <=? n) && (n <=? 57) then digits s' (10 * acc + (n - 48)) else None
  end.

Definition parseDecimal (s : string) : option Z :=
  match strings.Split s "." with
  | [i] => if String.eqb i "" then None else z ← digits i 0; Some (z * Second)
  | [i; f] =>
      if String.eqb i "" || String.eqb f "" || (9 <? String.length f)%nat then None
      else z ← digits i 0; y ← digits f 0;
           Some (z * Second + y * 10 ^ (9 - Z.of_nat (String.length f)))
  | _ => None
  end.

#[export] Instance nanosType : Float64Type := {| float64 := Z |}.

#[export] Instance nanos : Float64 := {|
  f64_zero := 0;
  f64_one := Second;
  ParseFloat := parseDecimal;
  Seconds := fun d => d;
|}.

Definition sameId (a b : prometheus.Desc) : bool :=
  String.eqb (prometheus.fqName a) (prometheus.fqName b)
  && bool_decide (prometheus.constLabels a = prometheus.constLabels b).

Definition clash (a b : prometheus.Desc) : bool :=
  String.eqb (prometheus.fqName a) (prometheus.fqName b)
  && negb (String.eqb (prometheus.help a) (prometheus.help b)
           && bool_decide (prometheus.variableLabels a = prometheus.variableLabels b)).

(** A registry that refuses a descriptor registered before and one
    that is inconsistent with a registered one of the same name. *)
Definition registerDescs (reg descs : list prometheus.Desc)
    : list prometheus.Desc * option error :=
  if existsb (fun d => existsb (sameId d) reg) descs
  then (reg, Some (ErrorString "duplicate metrics collector registration attempted"))
  else if existsb (fun d => existsb (clash d) reg) descs
  then (reg, Some (ErrorString "descriptor has different label names or a different help string"))
  else (reg ++ descs, None).

#[export] Instance descRegistry : SinkType := {| Registry := list prometheus.Desc |}.

#[export] Instance sink : Sink := {|
  Register := registerDescs;
|}.

#[export] Instance runtime : GoRuntime := {|
  rangeOrder := fun l => l;
  rangeOrder_perm := fun l => Permutation_refl l;
  runtime_Version := "go1.21";
  validLabelValue := fun _ => true;
|}.

Definition line (s : string) : string := s +:+ nl.

Fixpoint text (ls : list string) : string :=
  match ls with
  | [] => ""
  | l :: ls' => line l +:+ text ls'
  end.

(** An answer that comes at once and after which the stream stays open
    and silent. *)
Definition answer (ls : list string) : exchange :=
  {| x_delay := 5; x_data := text ls; x_end := AtHang |}.

Definition flags0 : Flags :=
  {| muninAddress := "localhost:4949"; metricPrefix := ""; muninIgnore := "";
     muninScrapeInterval := 60 |}.

Definition withIgnore (ign : string) : Flags :=
  {| muninAddress := "localhost:4949"; metricPrefix := ""; muninIgnore := ign;
     muninScrapeInterval := 60 |}.

Definition banner : exchange := answer ["# munin node at node1"].

(** The state in which the process starts, before [init]. *)
Definition boot (w : list dial) : state :=
  {| hostname := ""; graphs := []; gaugePerMetric := ∅; counterPerMetric := ∅;
     registry := []; globalConn := None; world := w; now := 0; trace := [] |}.

(** The state after [init] against an agent that plays [script]. *)
Definition connected (script : list exchange) : state :=
  stateOf (init flags0 (boot [DialOk 1 banner script])).

#[export] Instance float64_eq_dec : EqDecision float64 := Z.eq_dec.

#[export] Instance error_eq_dec : EqDecision error.
Proof. solve_decision. Defined.

#[export] Instance arg_eq_dec : EqDecision arg.
Proof. solve_decision. Defined.

#[export] Instance event_eq_dec : EqDecision event.
Proof. solve_decision. Defined.

(** The agent of the scenario of the specification: the plugins [cpu]
    and [df]; [cpu] has the gauge [user] and the counter [system]. *)
Definition cpuConfig : list string :=
  ["graph_title CPU"; "user.label user"; "system.label sys"; "system.type derive"; "."].

Definition cpuAgent : list exchange :=
  [answer ["cpu df"]; answer cpuConfig; answer ["user.value 12.5"; "system.value 99"; "."]].

Definition cpuFlags : Flags := withIgnore "df".

(** The state after the catalog build against [cpuAgent]. *)
Definition cpuCatalog : state := stateOf (registerMetrics cpuFlags (connected cpuAgent)).


(** An agent whose plugins [a_b] and [a] give the name [a_b_y] to a
    counter and to a gauge. *)
Definition mixedAgent : list exchange :=
  [answer ["a_b a"];
   answer ["graph_title T"; "y.label y"; "y.type counter"; "."];
   answer ["graph_title T"; "b_y.label y"; "."]].

Definition mixedCatalog : state := stateOf (registerMetrics cpuFlags (connected mixedAgent)).


(** An agent that closes the connection in the middle of a fetch
    answer, and would take a new connection. *)
Definition cutAgent : list dial :=
  [DialOk 1 banner
     [answer ["cpu"]; answer cpuConfig;
      {| x_delay := 1; x_data := line "user.value 1"; x_end := AtEOF |}];
   DialOk 1 banner [answer ["user.value 1"; "system.value 2"; "."]]].

Definition cutCatalog : state :=
  stateOf (registerMetrics cpuFlags (stateOf (init flags0 (boot cutAgent)))).

(** An agent that closes the connection after the catalog build, while
    no command is under way; the first new dial fails, the second gives
    a connection. *)
Definition idleCloseAgent : list dial :=
  [DialOk 1 banner [answer ["cpu"]; answer cpuConfig];
   DialError 3 "connection refused";
   DialOk 1 banner [answer ["user.value 1"; "system.value 2"; "."]]].

Definition idleCloseCatalog : state :=
  stateOf (registerMetrics cpuFlags (stateOf (init flags0 (boot idleCloseAgent)))).

(** The state after a scrape of [cpuAgent]. *)
Definition cpuScraped : state := stateOf (fetchMetrics cpuFlags cpuCatalog).







Definition cpuSystemCounter : muninCounter :=
  newMuninCounter "cpu_system" "CPU: sys" fieldLabels [("type", "derive")].




(** An agent with a plugin [munin_exporter] that has a field
    [fetch_time]: the canonical name of the field is that of the
    scrape-duration gauge. *)
Definition clashAgent : list exchange :=
  [answer ["munin_exporter"];
   answer ["graph_title T"; "fetch_time.label t"; "."];
   answer ["fetch_time.value 1"; "."]].

Definition clashCatalog : state := stateOf (registerMetrics cpuFlags (connected clashAgent)).

(** An agent that answers a first fetch and whose connection is reset
    in the answer to the second. *)
Definition resetAgent : list exchange :=
  [answer ["cpu"]; answer cpuConfig;
   answer ["user.value 12.5"; "system.value 99"; "."];
   {| x_delay := 2; x_data := line "user.value 13"; x_end := AtError "connection reset by peer" |}].

Definition resetCatalog : state := stateOf (registerMetrics cpuFlags (connected resetAgent)).

(** The state after the first turn of the main loop, the state after
    the failed pass of the second and the state after the second turn. *)
Definition resetScraped : state := stateOf (scrape cpuFlags resetCatalog).

Definition resetFailed : state :=
  stateOf (fetchMetrics cpuFlags (emit (EvLog "Scraping" []) resetScraped)).

Definition resetTwice : state := stateOf (scrapes cpuFlags 2 resetCatalog).

(** An agent that answers [list] with an error line. *)
Definition errAgent : list exchange := [answer ["# Unknown command. Try list, config, fetch"]].

Definition errResp : bufio.Reader :=
  bufio.NewReader (text ["# Unknown command. Try list, config, fetch"]) AtHang.

Definition errListed : state := stateOf (muninCommand "list" (connected errAgent)).

(** The state after the recovery of [idleCloseAgent]. *)
Definition idleRecovered : state := stateOf (muninCommand "fetch cpu" idleCloseCatalog).

(** A runtime whose [range] visits the entries of a map in the reverse
    of the order of [runtime]. *)
Definition reverseRuntime : GoRuntime := {|
  rangeOrder := reverse;
  rangeOrder_perm := reverse_Permutation;
  runtime_Version := "go1.21";
  validLabelValue := fun _ => true;
|}.

(** The fields of a plugin: [user], and [system] of type [derive]. *)
Definition cpuFields : configs_t :=
  <["user" := <["label" := "user"]> ∅]> (<["system" := <["type" := "derive"]> ∅]> ∅).

(** Two fields whose names differ by a dash only. *)
Definition twinFields : configs_t :=
  <["x-y" := <["label" := "dash"]> ∅]> (<["x_y" := <["label" := "underscore"]> ∅]> ∅).

End Sample.

(** * Properties *)

(** ** The string functions *)

Example Split_commas : strings.Split "cpu,df,if_" "," = ["cpu"; "df"; "if_"].
Proof. reflexivity. Qed.

Example Split_empty : strings.Split "" "," = [""].
Proof. reflexivity. Qed.

Example Split_key : strings.Split "user.value" "." = ["user"; "value"].
Proof. reflexivity. Qed.

Example Fields_line : strings.Fields (" user.value   12.5" +:+ nl) = ["user.value"; "12.5"].
Proof. reflexivity. Qed.

Example Replace_dash : strings.Replace "a-b_c-d" "-" "_" (-1) = "a_b_c_d".
Proof. reflexivity. Qed.

Example TrimRight_nl : strings.TrimRight ("ab" +:+ nl +:+ nl) nl = "ab".
Proof. reflexivity. Qed.

Example ToLower_derive : strings.ToLower "DeRiVe" = "derive".
Proof. reflexivity. Qed.

Example banner_match :
  regexp.FindStringSubmatch ("# munin node at node1" +:+ nl) = ["# munin node at node1"; "node1"].
Proof. reflexivity. Qed.

Example banner_mismatch : regexp.FindStringSubmatch ("# hello" +:+ nl) = [].
Proof. reflexivity. Qed.

Lemma prefix_nil (s : string) : String.prefix "" s = true.
Proof. by destruct s. Qed.

Lemma prefix_byte (c d : ascii) (s : string) :
  String.prefix (String c "") (String d s) = Ascii.eqb c d.
Proof.
  simpl. destruct (ascii_dec c d) as [->|Hne].
  - by rewrite prefix_nil, Ascii.eqb_refl.
  - symmetry. by apply Ascii.eqb_neq.
Qed.

Lemma HasPrefix_empty (name : string) : strings.HasPrefix name "" = true.
Proof. apply prefix_nil. Qed.

(** Replacing the one-byte string [-] everywhere is a map over the bytes. *)
Lemma Replace_dashes (s : string) :
  strings.Replace s "-" "_" (-1) = dashToUnderscore s.
Proof.
  unfold strings.Replace. simpl.
  induction s as [|c s IH]; [done|].
  cbn [strings.replaceFrom dashToUnderscore].
  rewrite prefix_byte, (Ascii.eqb_sym "-" c).
  destruct (Ascii.eqb c "-"); simpl; by rewrite IH.
Qed.

Lemma Lines_readLine_Some (s l r : string) :
  bufio.readLine s = Some (l, r) ->
  bufio.Lines s = (l :: fst (bufio.Lines r), snd (bufio.Lines r)).
Proof.
  revert l r. induction s as [|c s IH]; intros l r Hrl; [done|].
  simpl in *. destruct (Ascii.eqb c LF).
  - injection Hrl as <- <-. by destruct (bufio.Lines s).
  - destruct (bufio.readLine s) as [[l1 r1]|]; [|done].
    injection Hrl as <- <-. by rewrite (IH _ _ eq_refl).
Qed.

Lemma Lines_readLine_None (s : string) :
  bufio.readLine s = None -> bufio.Lines s = ([], s).
Proof.
  induction s as [|c s IH]; intros Hrl; [done|].
  simpl in *. destruct (Ascii.eqb c LF); [done|].
  destruct (bufio.readLine s) as [[l1 r1]|]; [done|].
  by rewrite IH.
Qed.

(** [ReadString] returns the lines of [Lines] one after the other. *)
Lemma ReadString_Lines (r : bufio.Reader) (l : string) (r' : bufio.Reader) :
  bufio.ReadString r = Some (l, None, r') ->
  fst (bufio.Lines (bufio.rd_buf r)) = l :: fst (bufio.Lines (bufio.rd_buf r'))
  /\ snd (bufio.Lines (bufio.rd_buf r)) = snd (bufio.Lines (bufio.rd_buf r'))
  /\ bufio.rd_end r' = bufio.rd_end r.
Proof.
  unfold bufio.ReadString. destruct r as [buf e]; simpl.
  destruct (bufio.readLine buf) as [[l0 rest]|] eqn:Hrl; [|by destruct e].
  intros [= <- <-]; simpl. by rewrite (Lines_readLine_Some _ _ _ Hrl).
Qed.

(** When no complete line is left [ReadString] hands out the end of the
    stream. *)
Lemma ReadString_end (r : bufio.Reader) :
  fst (bufio.Lines (bufio.rd_buf r)) = [] ->
  bufio.ReadString r =
    match bufio.rd_end r with
    | AtEOF => Some (bufio.rd_buf r, Some EOF, bufio.NewReader "" AtEOF)
    | AtError msg => Some (bufio.rd_buf r, Some (ErrorString msg), bufio.NewReader "" (AtError msg))
    | AtHang => None
    end.
Proof.
  unfold bufio.ReadString. destruct r as [buf e]; simpl. intros Hl.
  destruct (bufio.readLine buf) as [[l0 rest]|] eqn:Hrl; [|done].
  by rewrite (Lines_readLine_Some _ _ _ Hrl) in Hl.
Qed.

(** ** Letter case *)





Example equalFold_Counter : equalFold "Counter" "counter" = true.
Proof. reflexivity. Qed.

Example equalFold_gauge : equalFold "GAUGE" "counter" || equalFold "GAUGE" "derive" = false.
Proof. reflexivity. Qed.

(** ** The catalog and the holders *)

Section Catalog.
Context {FT : Float64Type} {FL : Float64} {ST : SinkType} {SK : Sink} {RT : GoRuntime}.
Variable flags : Flags.

Import prometheus.

(** The name both functions compute, in the specification's words. *)
Lemma metricName_register_canonical (plugin field : string) :
  metricName_register flags plugin field = canonicalName (metricPrefix flags) plugin field.
Proof.
  unfold metricName_register, canonicalName. rewrite Replace_dashes.
  by destruct (String.eqb (metricPrefix flags) "").
Qed.

(** C5: the canonical name of a scrape is the canonical name of the
    catalog build for the same prefix, plugin and field, and both are
    the prefix (when it is not empty), the plugin and the field joined
    with [_], every [-] replaced by [_]. *)
Theorem metricName_fetch_register (plugin field : string) :
  metricName_fetch flags plugin field = metricName_register flags plugin field
  /\ metricName_register flags plugin field = canonicalName (metricPrefix flags) plugin field
  /\ metricName_fetch flags plugin field = canonicalName (metricPrefix flags) plugin field.
Proof.
  split_and!.
  - reflexivity.
  - apply metricName_register_canonical.
  - unfold metricName_fetch, canonicalName. rewrite Replace_dashes.
    by destruct (String.eqb (metricPrefix flags) "").
Qed.

(** What [registerField] does to the two holder maps, by the test the
    code makes on the lowered [type] attribute. *)
Lemma registerField_holders (name metric : string) (graphConfig config : gmap string string)
    (s : state) :
  let n := metricName_register flags name metric in
  let t := strings.ToLower (at_key config "type") in
  exists s',
    registerField flags name graphConfig metric config s = Done tt s'
    /\ counterPerMetric s' =
         (if isCounterType t
          then <[n := newMuninCounter n (fieldDesc graphConfig config) fieldLabels
                        [("type", t)]]> (counterPerMetric s)
          else counterPerMetric s)
    /\ gaugePerMetric s' =
         (if isCounterType t
          then gaugePerMetric s
          else <[n := NewGaugeVec {| Name := n; Help := fieldDesc graphConfig config;
                                     ConstLabels := [("type", "gauge")] |} fieldLabels]>
                 (gaugePerMetric s)).
Proof.
  intros n t. unfold registerField. fold n t.
  destruct (isCounterType t).
  - eexists. split; [reflexivity|]. simpl. by destruct (Register _ _).
  - eexists. split; [reflexivity|]. simpl. by destruct (Register _ _).
Qed.





End Catalog.

(** ** What the protocol client may change *)

Section Keeps.
Context {FT : Float64Type} {FL : Float64} {ST : SinkType} {SK : Sink}.
Context (R : relation state) `{!Reflexive R} `{!Transitive R}.

Lemma keeps_ret {A} (a : A) : keeps R (ret a).
Proof. intros s. simpl. reflexivity. Qed.

Lemma keeps_get {A} (f : state -> A) : keeps R (get f).
Proof. intros s. simpl. reflexivity. Qed.

Lemma keeps_halt {A} (why : stop) : keeps R (halt (A:=A) why).
Proof. intros s. simpl. reflexivity. Qed.

Lemma keeps_modify (f : state -> state) : (forall s, R s (f s)) -> keeps R (modify f).
Proof. intros Hf s. apply Hf. Qed.

Lemma keeps_bind {A B} (m : M A) (k : A -> M B) :
  keeps R m -> (forall a, keeps R (k a)) -> keeps R (bind m k).
Proof.
  intros Hm Hk s. unfold bind. specialize (Hm s).
  destruct (m s) as [a s1|why s1]; simpl in *; [|done].
  etrans; [exact Hm | apply Hk].
Qed.
End Keeps.

Create HintDb client.

(** Breaks a computation down along its binds and case distinctions. *)
Ltac keeps_step :=
  lazymatch goal with
  | |- keeps _ (bind _ _) => apply keeps_bind; [typeclasses eauto .. | | intros ?]
  | |- keeps _ (ret _) => apply keeps_ret; typeclasses eauto
  | |- keeps _ (get _) => apply keeps_get; typeclasses eauto
  | |- keeps _ (halt _) => apply keeps_halt; typeclasses eauto
  | |- keeps _ (modify _) => apply keeps_modify; [typeclasses eauto ..|]; intros ?; cbv beta
  | |- keeps _ (logPrintf _ _) => unfold logPrintf
  | |- keeps _ (Sleep _) => unfold Sleep
  | |- keeps _ (match ?x with _ => _ end) => destruct x
  end.

(** A chain of field updates, innermost first. *)
Ltac frame_chain :=
  first [ solve [eauto with client]
        | etrans; [| solve [eauto with client]]; frame_chain ].

Ltac client_frame := repeat keeps_step; try frame_chain.

Section Client.
Context {FT : Float64Type} {FL : Float64} {ST : SinkType} {SK : Sink} {RT : GoRuntime}.
Variable flags : Flags.

Implicit Types s : state.

#[global] Instance clientFrame_refl : Reflexive clientFrame.
Proof.
  intros s. split; try done; try lia. exists []. by rewrite app_nil_r.
Qed.

#[global] Instance clientFrame_trans : Transitive clientFrame.
Proof.
  intros s1 s2 s3 [a1 b1 c1 d1 e1 (v1 & Hv1 & F1)] [a2 b2 c2 d2 e2 (v2 & Hv2 & F2)].
  split; try congruence; try lia.
  exists (v1 ++ v2). rewrite Hv2, Hv1, app_assoc. split; [done|]. by apply Forall_app.
Qed.


Lemma clientFrame_emit (e : event) s : isClientEvent e -> clientFrame s (emit e s).
Proof.
  intros He. split; try done; try (simpl; lia). exists [e]. split; [done|]. by constructor.
Qed.

Lemma clientFrame_tick (d : N) s : clientFrame s (tick d s).
Proof. split; try done; try (simpl; lia). exists []. by rewrite app_nil_r. Qed.

Lemma clientFrame_conn c s : clientFrame s (set_globalConn c s).
Proof. split; try done; try (simpl; lia). exists []. by rewrite app_nil_r. Qed.

Lemma clientFrame_world w s : clientFrame s (set_world w s).
Proof. split; try done; try (simpl; lia). exists []. by rewrite app_nil_r. Qed.

Lemma clientFrame_hostname h s : clientFrame s (set_hostname h s).
Proof. split; try done; try (simpl; lia). exists []. by rewrite app_nil_r. Qed.

Hint Resolve clientFrame_emit clientFrame_tick clientFrame_conn clientFrame_world
  clientFrame_hostname : client.
Hint Extern 1 (isClientEvent _) => exact I : client.

Lemma logFatalf_client {A} format args : keeps clientFrame (logFatalf (A:=A) format args).
Proof. intros s. by apply clientFrame_emit. Qed.

Lemma connectWith_client d : keeps clientFrame (connectWith d).
Proof.
  unfold connectWith. client_frame.
Qed.

Lemma issue_client cmd (k : M (bufio.Reader * option error)) :
  keeps clientFrame k -> keeps clientFrame (issue cmd k).
Proof.
  intros Hk. unfold issue. client_frame.
  apply logFatalf_client.
Qed.

Lemma retryCommand_client cmd w : keeps clientFrame (retryCommand cmd w).
Proof.
  induction w as [|d w IH]; cbn [retryCommand]; client_frame.
  - apply connectWith_client.
  - by apply issue_client.
Qed.

Lemma muninCommand_client cmd : keeps clientFrame (muninCommand cmd).
Proof.
  apply issue_client. client_frame. apply retryCommand_client.
Qed.
End Client.

#[global] Hint Resolve clientFrame_emit clientFrame_tick clientFrame_conn clientFrame_world
  clientFrame_hostname : client.
#[global] Hint Extern 1 (isClientEvent _) => exact I : client.

(** ** Discovery *)

Section Discovery.
Context {FT : Float64Type} {FL : Float64} {ST : SinkType} {SK : Sink} {RT : GoRuntime}.
Variable flags : Flags.

Implicit Types s : state.

#[global] Instance sameGraphs_refl : Reflexive sameGraphs.
Proof. by intros s. Qed.

#[global] Instance sameGraphs_trans : Transitive sameGraphs.
Proof. intros s1 s2 s3 H1 H2. unfold sameGraphs in *. congruence. Qed.

Lemma keeps_weaken (R R' : relation state) {A} (m : M A) :
  (forall s s', R s s' -> R' s s') -> keeps R m -> keeps R' m.
Proof. intros HR Hm s. apply HR, Hm. Qed.




Lemma registerField_graphs name g metric config :
  keeps sameGraphs (registerField flags name g metric config).
Proof.
  unfold registerField, register. case_match; client_frame; try done.
  all: by destruct (Register _ _).
Qed.

Lemma registerFields_graphs name g fields :
  keeps sameGraphs (registerFields flags name g fields).
Proof.
  induction fields as [|[metric config] fields IH]; cbn [registerFields]; client_frame.
  apply registerField_graphs.
Qed.

Lemma skipped_existsb (ignoreList : list string) (name : string) :
  skipped ignoreList name = existsb (strings.HasPrefix name) ignoreList.
Proof.
  unfold skipped.
  assert (forall acc, fold_left (fun skip prefix =>
                                   if strings.HasPrefix name prefix then true else skip)
                        ignoreList acc
                      = acc || existsb (strings.HasPrefix name) ignoreList) as H.
  { induction ignoreList as [|p l IH]; intros acc; simpl.
    - by rewrite orb_false_r.
    - rewrite IH. destruct (strings.HasPrefix name p), acc; simpl; done. }
  by rewrite H.
Qed.



(** With the flag empty the ignore list is the list of the empty
    string, which is a prefix of every name: every plugin is skipped. *)
Lemma empty_ignore_skips_all (name : string) : skipped (strings.Split "" ",") name = true.
Proof. rewrite skipped_existsb. simpl. by rewrite HasPrefix_empty. Qed.


End Discovery.

(** ** The scrape *)

Section Scrape.
Context {FT : Float64Type} {FL : Float64} {ST : SinkType} {SK : Sink} {RT : GoRuntime}.
Variable flags : Flags.

Import prometheus.
Implicit Types s : state.

#[global] Instance scrapeFrame_refl : Reflexive scrapeFrame.
Proof. intros s. split; try done. exists []. by rewrite app_nil_r. Qed.

#[global] Instance scrapeFrame_trans : Transitive scrapeFrame.
Proof.
  intros s1 s2 s3 [a1 b1 c1 (v1 & Hv1 & F1)] [a2 b2 c2 (v2 & Hv2 & F2)].
  split; try congruence; try lia.
  exists (v1 ++ v2). rewrite Hv2, Hv1, app_assoc. split; [done|].
  apply Forall_app. split; [done|]. by rewrite <- b1.
Qed.




(** Setting a gauge changes a value of its holder, not its label names. *)
Lemma WithLabelValues_Set_desc valid (gv gv' : GaugeVec) lvs (v : float64) :
  WithLabelValues_Set valid gv lvs v = Some gv' ->
  gv_desc gv' = gv_desc gv
  /\ length lvs = length (variableLabels (gv_desc gv))
  /\ gv_metrics gv' = <[lvs := v]> (gv_metrics gv).
Proof.
  unfold WithLabelValues_Set. case_match eqn:E; [|done]. intros [= <-].
  apply andb_true_iff in E as [E%Nat.eqb_eq _]. done.
Qed.

Lemma gaugeSet_done name lvs (v : float64) s s' :
  gaugeSet name lvs v s = Done tt s' ->
  exists gv gv',
    gaugePerMetric s !! name = Some gv
    /\ WithLabelValues_Set validLabelValue gv lvs v = Some gv'
    /\ s' = emit (EvGaugeSet name lvs v)
              (set_gaugePerMetric (<[name := gv']> (gaugePerMetric s)) s).
Proof.
  unfold gaugeSet, bind, get, modify.
  destruct (gaugePerMetric s !! name) as [gv|]; [|done].
  destruct (WithLabelValues_Set _ gv lvs v) as [gv'|] eqn:E; [|done].
  intros [= <-]. by exists gv, gv'.
Qed.

Lemma gaugeSet_stop name lvs (v : float64) s why s' :
  gaugeSet name lvs v s = Stop why s' -> s' = s.
Proof.
  unfold gaugeSet, bind, get, modify, halt.
  destruct (gaugePerMetric s !! name) as [gv|]; [|by intros [= _ <-]].
  destruct (WithLabelValues_Set _ gv lvs v) as [gv'|] eqn:E; [done|by intros [= _ <-]].
Qed.











End Scrape.

(** ** Reconnection *)

Section Reconnect.
Context {FT : Float64Type} {FL : Float64} {ST : SinkType} {SK : Sink} {RT : GoRuntime}.

Implicit Types s : state.

(** [retryCommand] is the loop of [muninCommand] followed by its
    recursive call: [connect()], and on success [muninCommand(cmd)]
    again, on failure a log line, a sleep and the next turn. *)
Lemma retryCommand_unfold cmd s :
  world s ≠ [] ->
  retryCommand cmd (world s) s =
    bind connect (fun err =>
      match err with
      | None => muninCommand cmd
      | Some e =>
          bind (logPrintf "Couldn't reconnect: %s" [AStr (errorText e)]) (fun _ =>
          bind (Sleep retryInterval) (fun _ =>
          bind (get world) (fun w => retryCommand cmd w)))
      end) s.
Proof.
  destruct (world s) as [|d w] eqn:Hw; [done|]. intros _.
  assert (forall a s1, connectWith (Some d) (set_world w s) = Done a s1 -> world s1 = w) as Hworld.
  { intros a s1. unfold connectWith, bind, logPrintf, modify, ret, halt. simpl.
    repeat case_match; intros; simplify_eq; done. }
  cbn [retryCommand]. unfold bind, modify, connect, logPrintf, Sleep, get. rewrite Hw.
  destruct (connectWith (Some d) (set_world w s)) as [[e|] s1|why s1] eqn:E; [| |done].
  - specialize (Hworld _ _ eq_refl). simpl. by rewrite Hworld.
  - specialize (Hworld _ _ eq_refl). unfold muninCommand, issue, bind, get.
    destruct (globalConn s1); [|done]. simpl.
    destruct (bufio.Peek1 _) as [|[|]|]; try done. simpl. by rewrite Hworld.
Qed.



(** The other half fails: the end of the stream inside an answer stops
    the process in [log.Fatalf], in [fetchMetrics]... *)
Lemma fetchLoop_EOF_fatal flags graph s :
  fetchLoop flags graph [] AtEOF s = Stop Fatal (emit (EvLog "unexpected EOF, retrying" []) s).
Proof. reflexivity. Qed.

(** ... and in [muninConfig]. *)
Lemma configLoop_EOF_fatal cfg g s :
  configLoop [] AtEOF cfg g s = Stop Fatal (emit (EvLog "unexpected EOF, retrying" []) s).
Proof. reflexivity. Qed.

End Reconnect.

(** ** The answers of the sink are discarded *)

Section Commutes.
Context {FT : Float64Type} {FL : Float64} {ST : SinkType} {SK : Sink}.







End Commutes.



Section Registration.
Context {FT : Float64Type} {FL : Float64} {ST : SinkType} {SK : Sink} {RT : GoRuntime}.
Variable flags : Flags.













End Registration.

(** ** Tokens and lines *)






(** ** The outcomes of the protocol client *)

Section ClientOutcomes.
Context {FT : Float64Type} {FL : Float64} {ST : SinkType} {SK : Sink} {RT : GoRuntime}.

Implicit Types s : state.

Lemma dotStar_noLF (s : string) : noLF (regexp.dotStar s) = true.
Proof.
  induction s as [|c s IH]; [done|]. simpl.
  destruct (Ascii.eqb c LF) eqn:E; [done|]. simpl. by rewrite E.
Qed.

Lemma FindStringSubmatch_group (head m h : string) :
  regexp.FindStringSubmatch head = [m; h] -> noLF h = true /\ bannerMatch head = m.
Proof.
  intros Hm. unfold bannerMatch. rewrite Hm. split; [|done].
  unfold regexp.FindStringSubmatch in Hm.
  destruct (regexp.findAfter regexp.bannerLiteral head) as [after|]; [|done].
  injection Hm as _ <-. apply dotStar_noLF.
Qed.

(** What [connect] leaves behind, by the outcome of the dial. *)
Lemma connectWith_outcome d s :
  match connectWith d s with
  | Done None s' =>
      is_Some (globalConn s') /\ noLF (hostname s') = true
      /\ exists head, regexp.FindStringSubmatch head = [bannerMatch head; hostname s']
  | Done (Some _) s' => hostname s' = hostname s
  | Stop why s' => why = Hang /\ hostname s' = hostname s
  end.
Proof.
  unfold connectWith, bind, logPrintf, modify, ret, halt.
  destruct d as [[delay msg|delay banner script]|]; try done.
  destruct (bufio.ReadString _) as [[[head [e|]] rd]|]; try done.
  destruct (regexp.FindStringSubmatch head) as [|m [|h [|]]] eqn:Hm; try done.
  destruct (FindStringSubmatch_group _ _ _ Hm) as [Hh Hb]. simpl.
  split; [eauto|]. split; [done|]. exists head. by rewrite Hb.
Qed.


Lemma issue_outcome cmd (k : M (bufio.Reader * option error)) s :
  is_Some (globalConn s) ->
  (forall s1, commandOutcome (k s1)) ->
  commandOutcome (issue cmd k s).
Proof.
  intros [script Hs] Hk. unfold issue, bind, get, modify, ret, halt, logPrintf, logFatalf.
  rewrite Hs.
  destruct (bufio.Peek1 _) as [|[|msg]|] eqn:Hp; simpl; try done.
  all: first [apply Hk | rewrite Hp; eauto].
Qed.

Lemma retryCommand_outcome cmd w s : commandOutcome (retryCommand cmd w s).
Proof.
  revert s. induction w as [|d w IH]; intros s; [done|].
  cbn [retryCommand]. unfold bind at 1, modify at 1. unfold bind at 1.
  pose proof (connectWith_outcome (Some d) (set_world w s)) as H.
  destruct (connectWith (Some d) (set_world w s)) as [[e|] s1|why s1].
  - unfold bind, logPrintf, Sleep, modify. apply IH.
  - apply issue_outcome; [apply H | intros s2; apply IH].
  - simpl. destruct H as [-> _]. done.
Qed.

(** X3: a call of [muninCommand] with a connection in [globalConn] does
    not panic; when it returns, the error is nil, the reader has a byte
    to give and [globalConn] holds a connection.  The callers' branches
    for a non-nil error are never taken. *)
Theorem muninCommand_outcome cmd s :
  is_Some (globalConn s) -> commandOutcome (muninCommand cmd s).
Proof.
  intros Hs. unfold muninCommand. apply issue_outcome; [done|].
  intros s1. unfold bind, get. apply retryCommand_outcome.
Qed.

(** X4: the protocol client leaves the catalog alone.  However a call
    of [muninCommand] ends, the plugin list, the two holder maps and
    the registry are what they were, the clock has not gone back, and
    the trace has grown by events of the connection only. *)
Theorem muninCommand_leaves_catalog cmd s :
  let s' := stateOf (muninCommand cmd s) in
  graphs s' = graphs s
  /\ gaugePerMetric s' = gaugePerMetric s
  /\ counterPerMetric s' = counterPerMetric s
  /\ registry s' = registry s
  /\ now s <= now s'
  /\ exists evs, trace s' = trace s ++ evs /\ Forall isClientEvent evs.
Proof. intros s'. by destruct (muninCommand_client cmd s). Qed.


End ClientOutcomes.

(** ** The config answer *)






Section ConfigAnswer.
Context {FT : Float64Type} {FL : Float64} {ST : SinkType} {SK : Sink} {RT : GoRuntime}.
Variable flags : Flags.

Implicit Types s : state.

(** X7: the loops over an answer return at the end marker: the lines
    after it, and the way the stream ends, have no effect, in
    [muninConfig] as in [fetchMetrics]. *)
Theorem loops_return_at_end_marker (ls post post' : list string) (rest rest' : stream_end)
    (raw graph : string) (cfg : configs_t) (g : gmap string string) s :
  isEndMarker (strings.TrimRight raw nl) = true ->
  configLoop (ls ++ ("." +:+ nl) :: post) rest cfg g s
  = configLoop (ls ++ ("." +:+ nl) :: post') rest' cfg g s
  /\ fetchLoop flags graph (ls ++ raw :: post) rest s
     = fetchLoop flags graph (ls ++ raw :: post') rest' s.
Proof.
  intros Hraw. split.
  - revert cfg g. induction ls as [|l ls IH]; intros cfg g; cbn [app configLoop].
    + done.
    + destruct (String.eqb l ("." +:+ nl)); [done|].
      destruct (isByte "#" (firstByte l)); [apply IH|].
      destruct (configLine l cfg g) as [[cfg' g']|e]; [apply IH|done].
  - revert s. induction ls as [|l ls IH]; intros s; cbn [app fetchLoop].
    + by rewrite Hraw.
    + destruct (isEndMarker (strings.TrimRight l nl)); [done|].
      unfold bind. destruct (fetchLine flags graph (strings.TrimRight l nl) s); [apply IH|done].
Qed.

(** X8: comment lines do nothing in a config answer: [muninConfig]
    gives the same result, in the same state, with the comment lines
    taken out. *)
Theorem config_comments_ignored (ls : list string) (rest : stream_end)
    (cfg : configs_t) (g : gmap string string) s :
  configLoop ls rest cfg g s
  = configLoop (List.filter (fun l => negb (isComment l)) ls) rest cfg g s.
Proof.
  revert cfg g. induction ls as [|l ls IH]; intros cfg g; [done|].
  cbn [List.filter configLoop]. unfold isComment at 1.
  destruct (String.eqb l ("." +:+ nl)) eqn:El.
  - apply String.eqb_eq in El. subst l. simpl. done.
  - destruct (isByte "#" (firstByte l)) eqn:Ec; cbn [negb].
    + apply IH.
    + cbn [configLoop]. rewrite El, Ec.
      destruct (configLine l cfg g) as [[cfg' g']|e]; [apply IH|done].
Qed.

End ConfigAnswer.

(** ** Canonical names *)

Lemma dashToUnderscore_app (a b : string) :
  dashToUnderscore (a +:+ b) = dashToUnderscore a +:+ dashToUnderscore b.
Proof. induction a as [|c a IH]; [done|]. simpl. by rewrite IH. Qed.

Lemma dashToUnderscore_no_dash (s : string) : hasByte "-" (dashToUnderscore s) = false.
Proof.
  induction s as [|c s IH]; [done|]. cbn [dashToUnderscore hasByte]. rewrite IH, orb_false_r.
  destruct (Ascii.eqb c "-") eqn:E; [done|]. by rewrite Ascii.eqb_sym.
Qed.

Lemma append_assoc (a b c : string) : (a +:+ b) +:+ c = a +:+ b +:+ c.
Proof.
  induction a as [|x a IH]; [done|].
  change (String x ((a +:+ b) +:+ c) = String x (a +:+ b +:+ c)). by rewrite IH.
Qed.

(** X9: a canonical metric name has no dash, and it does not tell the
    parts it was made of: plugin and field names that agree once their
    dashes are underscores get the same name, and so do a plugin [a]
    with field [b_c] and a plugin [a_b] with field [c]. *)
Theorem canonical_name_collisions (flags : Flags) (a b c a' c' : string) :
  hasByte "-" (metricName_register flags a c) = false
  /\ (dashToUnderscore a = dashToUnderscore a' -> dashToUnderscore c = dashToUnderscore c' ->
      metricName_register flags a c = metricName_register flags a' c')
  /\ metricName_register flags a (b +:+ "_" +:+ c)
     = metricName_register flags (a +:+ "_" +:+ b) c.
Proof.
  rewrite !metricName_register_canonical. unfold canonicalName. split_and!.
  - apply dashToUnderscore_no_dash.
  - intros Ha Hc. destruct (String.eqb (metricPrefix flags) "");
      rewrite !dashToUnderscore_app, ?Ha, ?Hc; done.
  - destruct (String.eqb (metricPrefix flags) ""); by rewrite !append_assoc.
Qed.

(** ** What a scrape may change *)

Section ScrapeInduction.
Context {FT : Float64Type} {FL : Float64} {ST : SinkType} {SK : Sink} {RT : GoRuntime}.
Variable flags : Flags.
Context (R : relation state) `{!Reflexive R} `{!Transitive R}.

Import prometheus.
Implicit Types s : state.

Hypothesis R_client : forall s s', clientFrame s s' -> R s s'.
Hypothesis R_gauge : forall s name gv gv' lvs v,
  length lvs = 3%nat ->
  gaugePerMetric s !! name = Some gv ->
  WithLabelValues_Set validLabelValue gv lvs v = Some gv' ->
  R s (emit (EvGaugeSet name lvs v) (set_gaugePerMetric (<[name := gv']> (gaugePerMetric s)) s)).
Hypothesis R_duration : forall s gv gv' host v,
  gaugePerMetric s !! fetchTimeName = Some gv ->
  WithLabelValues_Set validLabelValue gv [host] v = Some gv' ->
  R s (emit (EvGaugeSet fetchTimeName [host] v)
         (set_gaugePerMetric (<[fetchTimeName := gv']> (gaugePerMetric s)) s)).
Hypothesis R_counter : forall s name c lvs v,
  counterPerMetric s !! name = Some c ->
  R s (emit (EvCounterUpdate name lvs v)
         (set_counterPerMetric (<[name := UpdateLabels c lvs v]> (counterPerMetric s)) s)).

Lemma muninCommand_keeps cmd : keeps R (muninCommand cmd).
Proof. eapply keeps_weaken; [exact R_client | apply muninCommand_client]. Qed.

Lemma log_keeps format args : keeps R (logPrintf format args).
Proof. intros s. apply R_client. unfold logPrintf, modify. simpl. eauto with client. Qed.

Lemma logFatalf_keeps {A} format args : keeps R (logFatalf (A:=A) format args).
Proof. intros s. apply R_client. simpl. eauto with client. Qed.

Lemma gaugeSet_keeps name lvs (v : float64) :
  length lvs = 3%nat -> keeps R (gaugeSet name lvs v).
Proof.
  intros Hl s. destruct (gaugeSet name lvs v s) as [[] s'|why s'] eqn:E; simpl.
  - apply gaugeSet_done in E as (gv & gv' & Hg & Hset & ->). by eapply R_gauge.
  - apply gaugeSet_stop in E as ->. reflexivity.
Qed.

Lemma gaugeSet_duration_keeps host (v : float64) : keeps R (gaugeSet fetchTimeName [host] v).
Proof.
  intros s. destruct (gaugeSet fetchTimeName [host] v s) as [[] s'|why s'] eqn:E; simpl.
  - apply gaugeSet_done in E as (gv & gv' & Hg & Hset & ->). by eapply R_duration.
  - apply gaugeSet_stop in E as ->. reflexivity.
Qed.

Lemma counterUpdate_keeps name lvs (v : float64) : keeps R (counterUpdate name lvs v).
Proof.
  intros s. unfold counterUpdate, bind, get, modify, halt.
  destruct (counterPerMetric s !! name) eqn:E; simpl; [by eapply R_counter | reflexivity].
Qed.

Lemma fetchLine_keeps graph line : keeps R (fetchLine flags graph line).
Proof.
  unfold fetchLine. repeat case_match; client_frame;
    first [apply log_keeps | by apply gaugeSet_keeps | apply counterUpdate_keeps].
Qed.

Lemma fetchLoop_keeps graph ls rest : keeps R (fetchLoop flags graph ls rest).
Proof.
  induction ls as [|raw ls IH]; cbn [fetchLoop].
  - destruct rest; client_frame. apply logFatalf_keeps.
  - case_match; client_frame; first [apply log_keeps | apply fetchLine_keeps].
Qed.

Lemma fetchGraphs_keeps gs : keeps R (fetchGraphs flags gs).
Proof.
  induction gs as [|graph gs IH]; cbn [fetchGraphs]; client_frame.
  all: first [apply muninCommand_keeps | apply fetchLoop_keeps].
Qed.

(** A relation that the protocol client, a gauge update and a counter
    update keep is kept by a whole scrape pass, however it ends. *)
Lemma fetchMetrics_keeps : keeps R (fetchMetrics flags).
Proof.
  unfold fetchMetrics. client_frame.
  all: first [apply fetchGraphs_keeps | apply gaugeSet_duration_keeps].
Qed.

End ScrapeInduction.

Section ScrapeHolders.
Context {FT : Float64Type} {FL : Float64} {ST : SinkType} {SK : Sink} {RT : GoRuntime}.
Variable flags : Flags.

Import prometheus.
Implicit Types s : state.

#[global] Instance holdersFrame_refl : Reflexive holdersFrame.
Proof. by intros s. Qed.

#[global] Instance holdersFrame_trans : Transitive holdersFrame.
Proof. intros s1 s2 s3 [] []. split; congruence. Qed.

(** The frame of the holders is kept by a scrape pass. *)
Lemma fetchMetrics_holders s : holdersFrame s (stateOf (fetchMetrics flags s)).
Proof.
  apply (fetchMetrics_keeps flags holdersFrame).
  - intros s1 s2 [a b c d _ _]. split; try done.
    + unfold gaugeDescs. by rewrite b.
    + unfold counterDescs. by rewrite c.
  - intros s1 name gv gv' lvs v _ Hgv Hset.
    apply WithLabelValues_Set_desc in Hset as (Hd & _ & _).
    split; try done. unfold gaugeDescs. simpl. rewrite fmap_insert, Hd.
    apply insert_id. by rewrite lookup_fmap, Hgv.
  - intros s1 gv gv' host v Hgv Hset.
    apply WithLabelValues_Set_desc in Hset as (Hd & _ & _).
    split; try done. unfold gaugeDescs. simpl. rewrite fmap_insert, Hd.
    apply insert_id. by rewrite lookup_fmap, Hgv.
  - intros s1 name c lvs v Hcv. split; try done.
    unfold counterDescs. simpl. rewrite fmap_insert. simpl.
    apply insert_id. by rewrite lookup_fmap, Hcv.
Qed.

(** X10: a scrape pass never adds, removes or re-describes a holder, and
    never touches the plugin list or the registry, however it ends
    (completion, error, exit, panic or hang): the names in the two
    holder maps and the descriptor under each name are what they were.
    Only values and label values change. *)
Theorem scrape_keeps_holders s :
  let s' := stateOf (fetchMetrics flags s) in
  graphs s' = graphs s
  /\ registry s' = registry s
  /\ gaugeDescs s' = gaugeDescs s
  /\ counterDescs s' = counterDescs s
  /\ dom (gaugePerMetric s') = dom (gaugePerMetric s)
  /\ dom (counterPerMetric s') = dom (counterPerMetric s)
  /\ (wellFormed s -> wellFormed s').
Proof.
  intros s'.
  destruct (fetchMetrics_holders s) as [Hg Hr Hga Hc]. fold s' in Hg, Hr, Hga, Hc.
  split_and!; try done.
  - unfold gaugeDescs in Hga. by rewrite <- (dom_fmap_L gv_desc), Hga, dom_fmap_L.
  - unfold counterDescs in Hc. by rewrite <- (dom_fmap_L counterDesc), Hc, dom_fmap_L.
  - intros [H1 H2 H3 H4]. split; rewrite ?Hga, ?Hc; done.
Qed.

End ScrapeHolders.

(** ** What the catalog build establishes *)

Section CatalogInduction.
Context {FT : Float64Type} {FL : Float64} {ST : SinkType} {SK : Sink} {RT : GoRuntime}.
Variable flags : Flags.
Context (R : relation state) `{!Reflexive R} `{!Transitive R}.

Import prometheus.
Implicit Types s : state.

Hypothesis R_client : forall s s', clientFrame s s' -> R s s'.
Hypothesis R_emit : forall s e, R s (emit e s).
Hypothesis R_registry : forall s r, R s (set_registry r s).
Hypothesis R_graphs : forall s name, R s (set_graphs (graphs s ++ [name]) s).
Hypothesis R_counter_new : forall s name metric d consts,
  let n := metricName_register flags name metric in
  R s (set_counterPerMetric
         (<[n := newMuninCounter n d fieldLabels consts]> (counterPerMetric s)) s).
Hypothesis R_gauge_new : forall s name metric d,
  let n := metricName_register flags name metric in
  R s (set_gaugePerMetric
         (<[n := NewGaugeVec {| Name := n; Help := d; ConstLabels := [("type", "gauge")] |}
                  fieldLabels]> (gaugePerMetric s)) s).
Hypothesis R_fetchTime : forall s,
  R s (set_gaugePerMetric
         (<[fetchTimeName :=
              NewGaugeVec {| Name := fetchTimeName;
                             Help := "Time taken to fetch data from all registered munin plugins";
                             ConstLabels := [("type", "gauge")] |} ["hostname"]]>
            (gaugePerMetric s)) s).

Lemma muninList_keeps : keeps R muninList.
Proof.
  unfold muninList. client_frame.
  all: try (etrans; [|apply R_emit]; reflexivity).
  eapply keeps_weaken; [exact R_client | apply muninCommand_client].
Qed.

Lemma configLoop_keeps ls rest cfg g : keeps R (configLoop ls rest cfg g).
Proof.
  revert cfg g. induction ls as [|l ls IH]; intros cfg g; cbn [configLoop].
  - destruct rest; client_frame. intros s. apply R_emit.
  - repeat case_match; client_frame; apply IH.
Qed.

Lemma muninConfig_keeps name : keeps R (muninConfig name).
Proof.
  unfold muninConfig. client_frame.
  all: try (etrans; [|apply R_emit]; reflexivity).
  - eapply keeps_weaken; [exact R_client | apply muninCommand_client].
  - apply configLoop_keeps.
Qed.

Lemma register_keeps name descs : keeps R (register name descs).
Proof.
  intros s. unfold register, modify. simpl. destruct (Register (registry s) descs) as [r e].
  etrans; [apply R_registry | apply R_emit].
Qed.

Lemma registerField_keeps name g metric config :
  keeps R (registerField flags name g metric config).
Proof.
  unfold registerField. case_match; client_frame.
  all: first [apply register_keeps | apply R_emit | apply R_counter_new | apply R_gauge_new].
Qed.

Lemma registerFields_keeps name g fields : keeps R (registerFields flags name g fields).
Proof.
  induction fields as [|[metric config] fields IH]; cbn [registerFields]; client_frame.
  apply registerField_keeps.
Qed.

Lemma registerPlugins_keeps ignoreList items :
  keeps R (registerPlugins flags ignoreList items).
Proof.
  induction items as [|name items IH]; cbn [registerPlugins]; client_frame.
  all: first [apply R_graphs | apply muninConfig_keeps | apply registerFields_keeps].
Qed.

Lemma registerBuiltins_keeps : keeps R registerBuiltins.
Proof.
  unfold registerBuiltins. client_frame.
  all: first [apply register_keeps | apply R_emit | apply R_fetchTime].
Qed.

(** A relation that the steps of the catalog build keep is kept by
    [registerMetrics], however it ends. *)
Lemma registerMetrics_keeps : keeps R (registerMetrics flags).
Proof.
  unfold registerMetrics. client_frame.
  all: first [apply muninList_keeps | apply registerPlugins_keeps | apply registerBuiltins_keeps].
Qed.

End CatalogInduction.

Section CatalogFacts.
Context {FT : Float64Type} {FL : Float64} {ST : SinkType} {SK : Sink} {RT : GoRuntime}.
Variable flags : Flags.

Import prometheus.
Implicit Types s : state.

#[global] Instance keepsWellFormed_refl : Reflexive keepsWellFormed.
Proof. intros s H. exact H. Qed.

#[global] Instance keepsWellFormed_trans : Transitive keepsWellFormed.
Proof. intros s1 s2 s3 H1 H2 H. by apply H2, H1. Qed.

Lemma wellFormed_same s s' :
  gaugeDescs s' = gaugeDescs s -> counterDescs s' = counterDescs s -> keepsWellFormed s s'.
Proof. intros Hg Hc [H1 H2 H3 H4]. split; rewrite ?Hg, ?Hc; done. Qed.

(** The maps [init] makes are a well-formed catalog. *)
Lemma wellFormed_empty s :
  gaugePerMetric s = ∅ -> counterPerMetric s = ∅ -> wellFormed s.
Proof.
  intros Hg Hc. split; unfold gaugeDescs, counterDescs; rewrite ?Hg, ?Hc, fmap_empty;
    intros k d; by rewrite lookup_empty.
Qed.

Lemma registerMetrics_wellFormed s : keepsWellFormed s (stateOf (registerMetrics flags s)).
Proof.
  apply (registerMetrics_keeps flags keepsWellFormed).
  - intros s1 s2 [a b c d _ _]. apply wellFormed_same.
    + unfold gaugeDescs. by rewrite b.
    + unfold counterDescs. by rewrite c.
  - intros s1 e. by apply wellFormed_same.
  - intros s1 r. by apply wellFormed_same.
  - intros s1 name. by apply wellFormed_same.
  - intros s1 name metric d consts n [H1 H2 H3 H4]. split; try done.
    + intros k d'. unfold counterDescs. simpl. rewrite fmap_insert, lookup_insert.
      case_decide; [by intros [= <-]; subst | apply H2].
    + intros k d'. unfold counterDescs. simpl. rewrite fmap_insert, lookup_insert.
      case_decide; [by intros [= <-] | apply H4].
  - intros s1 name metric d n [H1 H2 H3 H4]. split; try done.
    + intros k d'. unfold gaugeDescs. simpl. rewrite fmap_insert, lookup_insert.
      case_decide; [by intros [= <-]; subst | apply H1].
    + intros k d'. unfold gaugeDescs. simpl. rewrite fmap_insert, lookup_insert.
      case_decide; [by intros [= <-] | apply H3].
  - intros s1 [H1 H2 H3 H4]. split; try done.
    + intros k d'. unfold gaugeDescs. simpl. rewrite fmap_insert, lookup_insert.
      case_decide; [by intros [= <-]; subst | apply H1].
    + intros k d'. unfold gaugeDescs. simpl. rewrite fmap_insert, lookup_insert.
      case_decide; [by subst | apply H3].
Qed.

Lemma registerBuiltins_done e s s' :
  registerBuiltins s = Done e s' -> e = None /\ gaugeDescs s' !! fetchTimeName = Some fetchTimeDesc
                                    /\ graphs s' = graphs s.
Proof.
  unfold registerBuiltins. case_match; [|done].
  unfold bind, modify, register, ret, modify. simpl.
  destruct (Register _ _) as [r1 e1]. simpl. destruct (Register _ _) as [r2 e2]. simpl.
  intros [= <- <-]. split; [done|]. split; [|done].
  unfold gaugeDescs. simpl. by rewrite fmap_insert, lookup_insert_eq.
Qed.

(** X11: the catalog build keeps the catalog well formed however it ends,
    and when it succeeds the scrape-duration gauge is in the gauge map
    under its name, with the one label [hostname]: a plugin field that
    had taken that name has lost it. *)
Theorem catalog_build_well_formed s :
  wellFormed s ->
  wellFormed (stateOf (registerMetrics flags s))
  /\ forall s', registerMetrics flags s = Done None s' ->
       gaugeDescs s' !! fetchTimeName = Some fetchTimeDesc.
Proof.
  intros Hwf. split; [by apply registerMetrics_wellFormed|].
  intros s'. unfold registerMetrics. unfold bind at 1.
  destruct (muninList s) as [[items [e|]] s1|why s1]; try done.
  unfold bind at 1.
  destruct (registerPlugins _ _ _ s1) as [[e|] s2|why s2]; try done.
  by intros (_ & H & _)%registerBuiltins_done.
Qed.




End CatalogFacts.

(** ** Passes and the main loop *)

Section Passes.
Context {FT : Float64Type} {FL : Float64} {ST : SinkType} {SK : Sink} {RT : GoRuntime}.
Variable flags : Flags.

Import prometheus.
Implicit Types s : state.

#[global] Instance durationKept_refl : Reflexive durationKept.
Proof. by intros s H. Qed.

#[global] Instance durationKept_trans : Transitive durationKept.
Proof.
  intros s1 s2 s3 H1 H2 Hd. specialize (H1 Hd). rewrite <- H1. apply H2.
  destruct Hd as (gv & Hg & Hl). exists gv. by rewrite H1.
Qed.

#[global] Instance clockOn_refl : Reflexive clockOn.
Proof. intros s. unfold clockOn. lia. Qed.

#[global] Instance clockOn_trans : Transitive clockOn.
Proof. intros s1 s2 s3. unfold clockOn. lia. Qed.




Lemma fetchMetrics_clock s : now s <= now (stateOf (fetchMetrics flags s)).
Proof.
  apply (fetchMetrics_keeps flags clockOn); unfold clockOn.
  - by intros s1 s2 [_ _ _ _ ? _].
  - intros; simpl; lia.
  - intros; simpl; lia.
  - intros; simpl; lia.
Qed.

Lemma scrape_done s s' :
  scrape flags s = Done tt s' ->
  now s + Z.of_N (Z.to_N (muninScrapeInterval flags * Second)) <= now s'
  /\ holdersFrame s s'.
Proof.
  unfold scrape. unfold bind at 1, logPrintf, modify at 1. unfold bind at 1. unfold bind at 1.
  set (s0 := emit (EvLog "Scraping" []) s).
  pose proof (fetchMetrics_clock s0) as Hclock.
  pose proof (fetchMetrics_holders flags s0) as [H1 H2 H3 H4].
  destruct (fetchMetrics flags s0) as [[e|] s1|why s1]; simpl in *; [| |done].
  - unfold bind, logPrintf, modify, Sleep, modify. intros [= <-]. simpl.
    split; [lia|]. by split.
  - unfold bind, ret, Sleep, modify. intros [= <-]. simpl. split; [lia|]. by split.
Qed.

(** X17: the main loop keeps its pace and the catalog.  After [n] turns
    at least [n] scrape intervals have gone by on the clock, and the
    plugin list, the registry and the descriptors of the holders are
    what they were: nothing is discovered or registered after the start.
    The interval is one that fits a [time.Duration]. *)
Theorem main_loop_turns (n : nat) s s' :
  0 <= muninScrapeInterval flags <= maxSeconds ->
  scrapes flags n s = Done tt s' ->
  now s + Z.of_nat n * (muninScrapeInterval flags * Second) <= now s'
  /\ graphs s' = graphs s
  /\ registry s' = registry s
  /\ gaugeDescs s' = gaugeDescs s
  /\ counterDescs s' = counterDescs s.
Proof.
  intros Hi. revert s. induction n as [|n IH]; intros s; cbn [scrapes].
  - intros [= <-]. split_and!; try done. lia.
  - unfold bind. destruct (scrape flags s) as [[] s1|why s1] eqn:Hs; [|done].
    apply scrape_done in Hs as [Hnow [Hg Hr Hga Hc]].
    intros (Hn' & Hg' & Hr' & Hga' & Hc')%IH.
    split_and!; try congruence.
    unfold Second in *. rewrite Z2N.id in Hnow by lia. lia.
Qed.


(** X19: a counter holder cannot be collected before its first update.
    The holder [registerMetrics] makes for a counter field has no label
    values, its descriptor has three label names, and [Collect] panics
    on the mismatch; it stays so for a field the agent never reports. *)
Theorem fresh_counter_not_collectable (name metric : string)
    (g config : gmap string string) s :
  isCounterType (strings.ToLower (at_key config "type")) = true ->
  exists s' c,
    registerField flags name g metric config s = Done tt s'
    /\ counterPerMetric s' !! metricName_register flags name metric = Some c
    /\ currentLabels c = []
    /\ variableLabels (counterDesc c) = fieldLabels
    /\ Collect c = None.
Proof.
  intros Hc. destruct (registerField_holders flags name metric g config s) as (s' & Hrun & Hcm & _).
  rewrite Hc in Hcm. exists s'. eexists. split; [done|]. rewrite Hcm.
  split; [apply lookup_insert_eq|]. done.
Qed.

(** X20: an error answer to [list] stops the start.  When the first line
    of the answer begins with [#], [registerMetrics] returns the error
    [Error getting items] without a holder or a plugin added, and
    [startup] exits. *)
Theorem list_error_is_fatal (rd : bufio.Reader) (response : string) (rd' : bufio.Reader) s s1 :
  muninCommand "list" s = Done (rd, None) s1 ->
  bufio.ReadString rd = Some (response, None, rd') ->
  isByte "#" (firstByte response) = true ->
  let err := ErrorString ("Error getting items: " +:+ response) in
  registerMetrics flags s = Done (Some err) s1
  /\ stopOf (startup flags s) = Some Fatal
  /\ graphs s1 = graphs s
  /\ gaugePerMetric s1 = gaugePerMetric s
  /\ counterPerMetric s1 = counterPerMetric s
  /\ registry s1 = registry s.
Proof.
  intros Hcmd Hread Hc err.
  assert (registerMetrics flags s = Done (Some err) s1) as Hreg.
  { unfold registerMetrics, muninList, bind. by rewrite Hcmd, Hread, Hc. }
  pose proof (muninCommand_client "list" s) as Hf. rewrite Hcmd in Hf.
  destruct Hf as [? ? ? ? _ _]. split_and!; try done.
  unfold startup, bind. by rewrite Hreg.
Qed.

#[global] Instance sameHolders_equiv : Equivalence sameHolders.
Proof.
  split.
  - by intros s.
  - intros s t [H1 H2]. by split.
  - intros s t u [H1 H2] [H3 H4]. split; congruence.
Qed.

(** The holders after one field depend on the holders before it only. *)
Lemma registerField_sameHolders (name metric : string) (g config : gmap string string) s t :
  sameHolders s t ->
  sameHolders (stateOf (registerField flags name g metric config s))
              (stateOf (registerField flags name g metric config t)).
Proof.
  intros [Hg Hc].
  destruct (registerField_holders flags name metric g config s) as (s' & -> & Hc1 & Hg1).
  destruct (registerField_holders flags name metric g config t) as (t' & -> & Hc2 & Hg2).
  simpl. split; [by rewrite Hg1, Hg2, Hg | by rewrite Hc1, Hc2, Hc].
Qed.

Lemma registerFields_step (name metric : string) (g config : gmap string string) fields s :
  stateOf (registerFields flags name g ((metric, config) :: fields) s)
  = stateOf (registerFields flags name g fields
               (stateOf (registerField flags name g metric config s))).
Proof.
  cbn [registerFields]. unfold bind.
  by destruct (registerField_holders flags name metric g config s) as (s' & -> & _).
Qed.

Lemma registerFields_sameHolders (name : string) (g : gmap string string) fields s t :
  sameHolders s t ->
  sameHolders (stateOf (registerFields flags name g fields s))
              (stateOf (registerFields flags name g fields t)).
Proof.
  revert s t. induction fields as [|[metric config] fields IH]; intros s t H; [done|].
  rewrite !registerFields_step. by apply IH, registerField_sameHolders.
Qed.

(** Two fields with different canonical names can be taken in either order. *)
Lemma registerField_swap (name : string) (g : gmap string string)
    (m1 m2 : string) (c1 c2 : gmap string string) s :
  metricName_register flags name m1 <> metricName_register flags name m2 ->
  sameHolders
    (stateOf (registerField flags name g m2 c2 (stateOf (registerField flags name g m1 c1 s))))
    (stateOf (registerField flags name g m1 c1 (stateOf (registerField flags name g m2 c2 s)))).
Proof.
  intros Hne.
  destruct (registerField_holders flags name m1 g c1 s) as (s1 & -> & Hc1 & Hg1).
  destruct (registerField_holders flags name m2 g c2 s) as (s2 & -> & Hc2 & Hg2).
  simpl.
  destruct (registerField_holders flags name m2 g c2 s1) as (s12 & -> & Hc12 & Hg12).
  destruct (registerField_holders flags name m1 g c1 s2) as (s21 & -> & Hc21 & Hg21).
  simpl. split.
  - rewrite Hg12, Hg21, Hg1, Hg2.
    destruct (isCounterType (strings.ToLower (at_key c1 "type")));
      destruct (isCounterType (strings.ToLower (at_key c2 "type"))); try done.
    by apply insert_insert_ne.
  - rewrite Hc12, Hc21, Hc1, Hc2.
    destruct (isCounterType (strings.ToLower (at_key c1 "type")));
      destruct (isCounterType (strings.ToLower (at_key c2 "type"))); try done.
    by apply insert_insert_ne.
Qed.

Lemma registerFields_perm (name : string) (g : gmap string string)
    (fields fields' : list (string * gmap string string)) :
  Permutation fields fields' ->
  NoDup ((fun f => metricName_register flags name f.1) <$> fields) ->
  forall s, sameHolders (stateOf (registerFields flags name g fields s))
                        (stateOf (registerFields flags name g fields' s)).
Proof.
  induction 1 as [|[m c] l l' Hp IH|[m1 c1] [m2 c2] l|l l' l'' Hp1 IH1 Hp2 IH2]; intros Hnd s.
  - done.
  - rewrite !registerFields_step. apply IH. by inversion Hnd.
  - rewrite !registerFields_step. apply registerFields_sameHolders.
    symmetry. apply registerField_swap.
    rewrite !fmap_cons in Hnd. apply NoDup_cons in Hnd as [Hn _].
    simpl in Hn. intros Heq. apply Hn. rewrite Heq. by left.
  - etrans; [by apply IH1|]. apply IH2.
    by rewrite <- Hp1.
Qed.

(** X21: the order in which [range] visits the fields of a plugin does
    not decide the catalog when the canonical names of the fields are
    pairwise different: whatever the order, the loop over the fields
    returns and leaves the same two holder maps.  (With two fields of one
    canonical name the later one in the order keeps the name.) *)
Theorem field_order_irrelevant (name : string) (g : gmap string string)
    (configs : configs_t) s :
  NoDup ((fun f => metricName_register flags name f.1) <$> map_to_list configs) ->
  let r := registerFields flags name g (rangeOrder (map_to_list configs)) s in
  let r0 := registerFields flags name g (map_to_list configs) s in
  valueOf r = Some tt
  /\ gaugePerMetric (stateOf r) = gaugePerMetric (stateOf r0)
  /\ counterPerMetric (stateOf r) = counterPerMetric (stateOf r0)
  /\ graphs (stateOf r) = graphs s.
Proof.
  intros Hnd r r0.
  assert (forall fields t, valueOf (registerFields flags name g fields t) = Some tt) as Hdone.
  { induction fields as [|[m c] fields IH]; intros t; [done|].
    cbn [registerFields]. unfold bind.
    destruct (registerField_holders flags name m g c t) as (t' & -> & _). apply IH. }
  destruct (registerFields_perm name g (map_to_list configs) (rangeOrder (map_to_list configs)))
    with (s := s) as [Hg Hc]; [symmetry; apply rangeOrder_perm | done |].
  split_and!; [apply Hdone | done | done | apply registerFields_graphs].
Qed.

End Passes.

(** ** Runs against a concrete agent *)

Section Results.
Context {FT : Float64Type} {ST : SinkType}.

Lemma Done_stateOf {A} (r : result A) (a : A) : valueOf r = Some a -> r = Done a (stateOf r).
Proof. destruct r; simpl; [by intros [= ->] | done]. Qed.

Lemma Stop_stateOf {A} (r : result A) (why : stop) :
  stopOf r = Some why -> r = Stop why (stateOf r).
Proof. destruct r; simpl; [done | by intros [= ->]]. Qed.

End Results.

(** Evaluation of a closed run. *)
Ltac run := vm_compute; reflexivity.
Ltac run_done := apply Done_stateOf; run.
Ltac run_stop := apply Stop_stateOf; run.
Ltac run_decide := apply (bool_decide_eq_true_1 _); run.

Import Sample.

(** The scenario of the specification: plugin [cpu] with the fields
    [user] (no type) and [system] (type [derive]); [df] is ignored. *)
Example catalog_cpu :
  let r := registerMetrics cpuFlags (connected cpuAgent) in
  r = Done None (stateOf r)
  /\ graphs (stateOf r) = ["cpu"]
  /\ (map_to_list (gaugePerMetric (stateOf r))).*1 = ["cpu_user"; fetchTimeName]
  /\ (map_to_list (counterPerMetric (stateOf r))).*1 = ["cpu_system"].
Proof. split_and!; [run_done | run ..]. Qed.

Example scrape_cpu :
  let r := fetchMetrics cpuFlags cpuCatalog in
  r = Done None (stateOf r)
  /\ prometheus.gv_metrics <$> gaugePerMetric (stateOf r) !! "cpu_user"
     = Some {[ ["node1"; "cpu"; "user"] := 12500000000 ]}
  /\ value <$> counterPerMetric (stateOf r) !! "cpu_system" = Some 99000000000
  /\ currentLabels <$> counterPerMetric (stateOf r) !! "cpu_system"
     = Some ["node1"; "cpu"; "system"].
Proof. split_and!; [run_done | run ..]. Qed.

(** C1, where the code leaves the claim: with the ignore flag empty, as
    it is by default, the agent lists [cpu] and [df], no ignore prefix
    was asked for, and [registerMetrics] retains neither: [graphs]
    stays empty and no config command is sent. *)
Theorem empty_ignore_retains_nothing :
  let r := registerMetrics flags0 (connected cpuAgent) in
  muninIgnore flags0 = ""
  /\ r = Done None (stateOf r)
  /\ graphs (stateOf r) = []
  /\ (EvWrite ("config cpu" +:+ nl) ∉ trace (stateOf r))
  /\ (map_to_list (gaugePerMetric (stateOf r))).*1 = [fetchTimeName]
  /\ retained [] ["cpu"; "df"] = ["cpu"; "df"].
Proof. split_and!; [run | run_done | run | run_decide | run ..]. Qed.



(** C4, where the code leaves the claim: the agent closes the
    connection after the first line of the answer to [fetch cpu].  The
    pass logs [unexpected EOF, retrying] with [log.Fatalf] and the
    process exits; the dial that would have given a new connection is
    still unused, and no command is sent again. *)
Theorem stream_end_in_answer_is_fatal :
  let r := fetchMetrics cpuFlags cutCatalog in
  r = Stop Fatal (stateOf r)
  /\ last (trace (stateOf r)) = Some (EvLog "unexpected EOF, retrying" [])
  /\ length (world cutCatalog) = 1%nat
  /\ length (world (stateOf r)) = 1%nat
  /\ count_occ event_eq_dec (trace (stateOf r)) (EvWrite ("fetch cpu" +:+ nl)) = 1%nat
  /\ count_occ event_eq_dec (trace (stateOf r)) EvClose = 0%nat.
Proof. split_and!; [run_stop | run ..]. Qed.

(** The stream end that [muninCommand] itself meets is recovered: the
    agent has closed the idle connection, the first dial fails, the
    second succeeds, the command goes out again and the pass completes. *)
Example stream_end_before_answer_recovers :
  let r := fetchMetrics cpuFlags idleCloseCatalog in
  r = Done None (stateOf r)
  /\ world (stateOf r) = []
  /\ count_occ event_eq_dec (trace (stateOf r)) (EvWrite ("fetch cpu" +:+ nl)) = 2%nat
  /\ count_occ event_eq_dec (trace (stateOf r)) (EvSleep retryInterval) = 1%nat
  /\ count_occ event_eq_dec (trace (stateOf r)) EvClose = 1%nat.
Proof. split_and!; [run_done | run ..]. Qed.

(** ** The theorems at concrete inputs *)



(** A value that does not parse is skipped in the same way. *)
Example unparsable_value_skipped :
  valueOf (fetchLoop cpuFlags "cpu" [line "user.value 1,5"; line "system.value 99"; line "."]
             AtHang cpuCatalog) = Some None
  /\ value <$> counterPerMetric
                 (stateOf (fetchLoop cpuFlags "cpu"
                             [line "user.value 1,5"; line "system.value 99"; line "."]
                             AtHang cpuCatalog)) !! "cpu_system"
     = Some 99000000000.
Proof. split; run. Qed.


(** The pass over [cpu] took five nanoseconds, the delay of its answer. *)
Example scrape_duration_cpu :
  now cpuScraped - now cpuCatalog = 5
  /\ last (trace cpuScraped) = Some (EvGaugeSet fetchTimeName ["node1"] 5).
Proof. split; run. Qed.



(** The gauge is the holder that takes the value. *)
Example gauge_takes_value_of_shared_name :
  valueOf (fetchLine cpuFlags "a_b" "y.value 7" mixedCatalog) = Some tt
  /\ (prometheus.gv_metrics
        <$> gaugePerMetric (stateOf (fetchLine cpuFlags "a_b" "y.value 7" mixedCatalog))
            !! "a_b_y")
       ≫= (fun m => m !! ["node1"; "a_b"; "y"]) = Some 7000000000
  /\ currentLabels
       <$> counterPerMetric (stateOf (fetchLine cpuFlags "a_b" "y.value 7" mixedCatalog))
           !! "a_b_y" = Some [].
Proof. split_and!; run. Qed.

(** ** Further theorems at concrete inputs *)


(** [muninCommand_outcome] at the list command after [init]. *)
Lemma muninCommand_outcome_witness :
  is_Some (globalConn (connected cpuAgent))
  /\ commandOutcome (muninCommand "list" (connected cpuAgent)).
Proof.
  assert (is_Some (globalConn (connected cpuAgent))) as h
    by (vm_compute; eexists; reflexivity).
  exact (conj h (muninCommand_outcome "list" (connected cpuAgent) h)).
Defined.



(** The value of a config line keeps its inner spaces, one for each run. *)
Example configLine_title :
  configLine (line "graph_title CPU   usage ") ∅ ∅ = inl (∅, {[ "graph_title" := "CPU usage" ]}).
Proof. run. Qed.

(** [loops_return_at_end_marker] at an answer with a line after the
    end marker. *)
Lemma loops_return_at_end_marker_witness :
  isEndMarker (strings.TrimRight (line ".") nl) = true
  /\ configLoop ([line "graph_title CPU"] ++ ("." +:+ nl) :: [line "user.label user"])
       AtEOF ∅ ∅ cpuCatalog
     = configLoop ([line "graph_title CPU"] ++ ("." +:+ nl) :: []) AtHang ∅ ∅ cpuCatalog
  /\ fetchLoop cpuFlags "cpu" ([line "graph_title CPU"] ++ line "." :: [line "user.label user"])
       AtEOF cpuCatalog
     = fetchLoop cpuFlags "cpu" ([line "graph_title CPU"] ++ line "." :: []) AtHang cpuCatalog.
Proof.
  assert (isEndMarker (strings.TrimRight (line ".") nl) = true) as h by run.
  exact (conj h (loops_return_at_end_marker cpuFlags [line "graph_title CPU"]
                   [line "user.label user"] [] AtEOF AtHang (line ".") "cpu" ∅ ∅
                   cpuCatalog h)).
Defined.

(** [catalog_build_well_formed] at the catalog build against [cpuAgent]. *)
Lemma catalog_build_well_formed_witness :
  wellFormed (connected cpuAgent)
  /\ wellFormed (stateOf (registerMetrics cpuFlags (connected cpuAgent)))
  /\ forall s', registerMetrics cpuFlags (connected cpuAgent) = Done None s' ->
       gaugeDescs s' !! fetchTimeName = Some fetchTimeDesc.
Proof.
  assert (wellFormed (connected cpuAgent)) as h by (apply wellFormed_empty; run).
  exact (conj h (catalog_build_well_formed cpuFlags (connected cpuAgent) h)).
Defined.




(** The catalog build against that agent succeeds; its first scrape
    pass panics. *)
Example fetch_time_plugin_stops_scrape :
  valueOf (startup cpuFlags (connected clashAgent)) = Some tt
  /\ graphs clashCatalog = ["munin_exporter"]
  /\ stopOf (fetchMetrics cpuFlags clashCatalog) = Some Panic.
Proof. split_and!; run. Qed.



(** The duration the gauge shows after the failed pass is that of the
    first pass; the value of [user] is that of the line read before the
    reset. *)
Example failed_pass_values :
  (prometheus.gv_metrics <$> gaugePerMetric resetFailed !! fetchTimeName)
    ≫= (fun m => m !! ["node1"]) = Some 5
  /\ (prometheus.gv_metrics <$> gaugePerMetric resetFailed !! "cpu_user")
       ≫= (fun m => m !! ["node1"; "cpu"; "user"]) = Some 13000000000.
Proof. split; run. Qed.

(** [main_loop_turns] at two turns against [resetAgent], the second
    with a failed pass. *)
Lemma main_loop_turns_witness :
  0 <= muninScrapeInterval cpuFlags <= maxSeconds
  /\ scrapes cpuFlags 2 resetCatalog = Done tt resetTwice
  /\ now resetCatalog + Z.of_nat 2 * (muninScrapeInterval cpuFlags * Second) <= now resetTwice
  /\ graphs resetTwice = graphs resetCatalog
  /\ registry resetTwice = registry resetCatalog
  /\ gaugeDescs resetTwice = gaugeDescs resetCatalog
  /\ counterDescs resetTwice = counterDescs resetCatalog.
Proof.
  assert (0 <= muninScrapeInterval cpuFlags <= maxSeconds) as h1
    by (unfold cpuFlags, withIgnore, maxSeconds; simpl; lia).
  assert (scrapes cpuFlags 2 resetCatalog = Done tt resetTwice) as h2
    by (unfold resetTwice; apply Done_stateOf; run).
  exact (conj h1 (conj h2 (main_loop_turns cpuFlags 2 resetCatalog resetTwice h1 h2))).
Defined.

(** [init] against an agent with a good banner, against a world
    without an agent and against an agent that sends no banner. *)
Example init_runs :
  hostname (connected cpuAgent) = "node1"
  /\ valueOf (init flags0 (boot [DialOk 1 banner cpuAgent])) = Some tt
  /\ stopOf (init flags0 (boot [DialError 1 "connection refused"])) = Some Fatal
  /\ stopOf (init flags0 (boot [DialOk 1 (answer []) cpuAgent])) = Some Hang
  /\ stopOf (init flags0 (boot [DialOk 1 (answer ["hello"]) cpuAgent])) = Some Fatal.
Proof. split_and!; run. Qed.

(** [fresh_counter_not_collectable] at a field of type [DERIVE]. *)
Lemma fresh_counter_not_collectable_witness :
  isCounterType (strings.ToLower (at_key (<["type" := "DERIVE"]> ∅) "type")) = true
  /\ exists s' c,
       registerField cpuFlags "cpu" ∅ "system" (<["type" := "DERIVE"]> ∅) (connected cpuAgent)
       = Done tt s'
       /\ counterPerMetric s' !! metricName_register cpuFlags "cpu" "system" = Some c
       /\ currentLabels c = []
       /\ prometheus.variableLabels (counterDesc c) = fieldLabels
       /\ Collect c = None.
Proof.
  assert (isCounterType (strings.ToLower (at_key (<["type" := "DERIVE"]> ∅) "type")) = true)
    as h by run.
  exact (conj h (fresh_counter_not_collectable cpuFlags "cpu" "system" ∅
                   (<["type" := "DERIVE"]> ∅) (connected cpuAgent) h)).
Defined.

(** The counter of [cpu] before and after the first scrape pass. *)
Example counter_collect_cpu :
  Collect <$> counterPerMetric cpuCatalog !! "cpu_system" = Some None
  /\ (Collect <$> counterPerMetric cpuScraped !! "cpu_system")
     = Some (Some {| prometheus.m_desc := counterDesc cpuSystemCounter;
                     prometheus.m_type := prometheus.CounterValue;
                     prometheus.m_value := 99000000000;
                     prometheus.m_labels := ["node1"; "cpu"; "system"] |}).
Proof. split; run. Qed.

(** [list_error_is_fatal] at an agent that does not know [list]. *)
Lemma list_error_is_fatal_witness :
  muninCommand "list" (connected errAgent) = Done (errResp, None) errListed
  /\ bufio.ReadString errResp
     = Some (line "# Unknown command. Try list, config, fetch", None, bufio.NewReader "" AtHang)
  /\ isByte "#" (firstByte (line "# Unknown command. Try list, config, fetch")) = true
  /\ registerMetrics cpuFlags (connected errAgent)
     = Done (Some (ErrorString ("Error getting items: "
                                +:+ line "# Unknown command. Try list, config, fetch")))
         errListed
  /\ stopOf (startup cpuFlags (connected errAgent)) = Some Fatal
  /\ graphs errListed = graphs (connected errAgent)
  /\ gaugePerMetric errListed = gaugePerMetric (connected errAgent)
  /\ counterPerMetric errListed = counterPerMetric (connected errAgent)
  /\ registry errListed = registry (connected errAgent).
Proof.
  assert (muninCommand "list" (connected errAgent) = Done (errResp, None) errListed) as h1
    by (unfold errListed; apply Done_stateOf; run).
  assert (bufio.ReadString errResp
          = Some (line "# Unknown command. Try list, config, fetch", None,
                  bufio.NewReader "" AtHang)) as h2 by run.
  assert (isByte "#" (firstByte (line "# Unknown command. Try list, config, fetch")) = true)
    as h3 by run.
  exact (conj h1 (conj h2 (conj h3
           (list_error_is_fatal cpuFlags errResp
              (line "# Unknown command. Try list, config, fetch")
              (bufio.NewReader "" AtHang) (connected errAgent) errListed h1 h2 h3)))).
Defined.

(** [field_order_irrelevant] at the fields of [cpu], visited in the
    reverse order. *)
Lemma field_order_irrelevant_witness :
  NoDup ((fun f => metricName_register cpuFlags "cpu" f.1) <$> map_to_list cpuFields)
  /\ valueOf (registerFields cpuFlags "cpu" ∅
                (rangeOrder (GoRuntime := reverseRuntime) (map_to_list cpuFields))
                (connected cpuAgent)) = Some tt
  /\ gaugePerMetric
       (stateOf (registerFields cpuFlags "cpu" ∅
                   (rangeOrder (GoRuntime := reverseRuntime) (map_to_list cpuFields))
                   (connected cpuAgent)))
     = gaugePerMetric
         (stateOf (registerFields cpuFlags "cpu" ∅ (map_to_list cpuFields) (connected cpuAgent)))
  /\ counterPerMetric
       (stateOf (registerFields cpuFlags "cpu" ∅
                   (rangeOrder (GoRuntime := reverseRuntime) (map_to_list cpuFields))
                   (connected cpuAgent)))
     = counterPerMetric
         (stateOf (registerFields cpuFlags "cpu" ∅ (map_to_list cpuFields) (connected cpuAgent)))
  /\ graphs
       (stateOf (registerFields cpuFlags "cpu" ∅
                   (rangeOrder (GoRuntime := reverseRuntime) (map_to_list cpuFields))
                   (connected cpuAgent)))
     = graphs (connected cpuAgent).
Proof.
  assert (NoDup ((fun f => metricName_register cpuFlags "cpu" f.1) <$> map_to_list cpuFields))
    as h by run_decide.
  exact (conj h (field_order_irrelevant (RT := reverseRuntime) cpuFlags "cpu" ∅ cpuFields
                   (connected cpuAgent) h)).
Defined.

(** With two fields of one canonical name the order decides which
    holder keeps the name. *)
Example field_order_decides_collision :
  (prometheus.help <$> gaugeDescs
     (stateOf (registerFields cpuFlags "p" ∅ (map_to_list twinFields) (connected cpuAgent)))
     !! "p_x_y")
  <> (prometheus.help <$> gaugeDescs
        (stateOf (registerFields cpuFlags "p" ∅ (reverse (map_to_list twinFields))
                    (connected cpuAgent)))
        !! "p_x_y").
Proof. vm_compute. discriminate. Qed.
